(** * sails-mongo (0.12 fork): connection registry, config normaliser and
      adapter verbs, embedded from [lib/adapter.js] and [lib/connection.js].

    The JavaScript is embedded shallowly:
    - a JS value is a [jsval] (numbers are integers); a plain object used
      as a dictionary is a [gmap] of its own properties.  Where the code
      indexes the registry or a collection map with a name the caller
      supplies and tests or dereferences what it finds, the names every
      object inherits from [Object.prototype] are taken into account
      ([js_lookup]);
    - a function that may [throw] returns a [res];
    - the adapter's verbs run in a small state-and-exception monad [M] over
      a [world]: the module-level [connections] registry together with the
      log of the calls issued to the MongoDB driver and to the collection
      facade.  The replies of the driver are not part of the repository:
      they are read from an environment [Env], each reply being a function of
      the log so far and of the call's arguments.  A callback is run when
      the reply is read, so a verb's value is what its callback receives;
    - the [logger.log] lines are left out: logging has no bearing on the
      registry or on the calls issued. *)

From Stdlib Require Import ZArith String Ascii List Lia.
From stdpp Require Import base option gmap strings list fin_maps pretty.

Set Warnings "-register-all".
Local Open Scope string_scope.

(** ** JavaScript values *)

Module JS.

Inductive jsval : Type :=
| JUndefined
| JNull
| JBool (b : bool)
| JNum (n : Z)
| JStr (s : string)
| JArr (xs : list jsval)
| JObj (fields : list (string * jsval)).

(** [!!v]: ToBoolean. *)
Definition truthy (v : jsval) : bool :=
  match v with
  | JUndefined | JNull => false
  | JBool b => b
  | JNum n => negb (n =? 0)%Z
  | JStr s => negb (String.eqb s "")
  | JArr _ | JObj _ => true
  end.

Definition falsy (v : jsval) : bool := negb (truthy v).

Definition is_undefined (v : jsval) : bool :=
  match v with JUndefined => true | _ => false end.

Fixpoint join (sep : string) (l : list string) : string :=
  match l with
  | [] => ""
  | [x] => x
  | x :: rest => x ++ sep ++ join sep rest
  end.

(** ToString, as applied by [+] with a string operand and by property
    access with a computed key. *)
Fixpoint toString (v : jsval) : string :=
  match v with
  | JUndefined => "undefined"
  | JNull => "null"
  | JBool true => "true"
  | JBool false => "false"
  | JNum n => pretty n
  | JStr s => s
  | JArr xs =>
      join ","
        (List.map (fun x => match x with
                            | JUndefined | JNull => ""
                            | _ => toString x
                            end) xs)
  | JObj _ => "[object Object]"
  end.

(** [v === 'lit'] *)
Definition strict_eq_str (v : jsval) (lit : string) : bool :=
  match v with JStr s => String.eqb s lit | _ => false end.

(** Plain objects used as dictionaries. *)
Abbreviation jsobj := (gmap string jsval).

(** [o.k] / [o[k]]: a missing property reads as [undefined]. *)
Definition get (o : jsobj) (k : string) : jsval := default JUndefined (o !! k).

(** [o.hasOwnProperty(k)] *)
Definition hasOwnProperty (o : jsobj) (k : string) : bool := bool_decide (is_Some (o !! k)).

(** The property names a plain object inherits from [Object.prototype].
    What is found under them is a function (the prototype itself for
    [__proto__]): truthy, and without any of the properties the adapter
    reads off its entries. *)
Definition prototype_names : list string :=
  [ "constructor"; "__defineGetter__"; "__defineSetter__"; "hasOwnProperty";
    "__lookupGetter__"; "__lookupSetter__"; "isPrototypeOf"; "propertyIsEnumerable";
    "toString"; "valueOf"; "__proto__"; "toLocaleString" ].

Definition inherited (k : string) : bool := existsb (String.eqb k) prototype_names.

(** [o[k]] on a plain object [o = {...}] whose own properties are [o]. *)
Inductive looked (V : Type) : Type :=
| Own (v : V)
| Inherited
| Absent.
Arguments Own {V} v.
Arguments Inherited {V}.
Arguments Absent {V}.

Definition js_lookup {V} (o : gmap string V) (k : string) : looked V :=
  match o !! k with
  | Some v => Own v
  | None => if inherited k then Inherited else Absent
  end.

(** One step of lodash's [_.defaults(object, source)]: every key of
    [source] whose value in [object] resolves to [undefined] is assigned
    from [source]. *)
Definition defaults_pick (d s : option jsval) : option jsval :=
  match d, s with
  | Some JUndefined, Some w => Some w
  | Some v, _ => Some v
  | None, s => s
  end.

Definition defaults1 (object source : jsobj) : jsobj := merge defaults_pick object source.

(** [_.defaults(object, s1, s2, ...)]: sources are applied left to right;
    a source that is [undefined] or [null] is skipped. *)
Definition defaults (object : jsobj) (sources : list (option jsobj)) : jsobj :=
  fold_left (fun acc src => match src with
                            | Some s => defaults1 acc s
                            | None => acc
                            end) sources object.

(** [s.split(sep)] for a one-character separator. *)
Fixpoint split (sep : ascii) (s : string) : list string :=
  match s with
  | EmptyString => [""]
  | String c s' =>
      if Ascii.eqb c sep then "" :: split sep s'
      else match split sep s' with
           | [] => [String c ""]
           | h :: t => String c h :: t
           end
  end.

(** Exceptions and results of functions that may throw. *)
Inductive exn : Type :=
| JsError (message : string)
| JsTypeError (message : string).

Inductive res (A : Type) : Type :=
| Ret (a : A)
| Throw (e : exn).
Arguments Ret {A} a.
Arguments Throw {A} e.

End JS.
Import JS.

(** ** The driver boundary and the world the adapter runs in *)

Module Mongo.

(** A live [MongoClient] handle, as handed to the connect callback. *)
Definition client : Type := nat.

(** Error values that reach a callback. *)
Inductive error : Type :=
| IdentityMissing
| IdentityDuplicate
| NoDbObject
| DriverError (message : string) (errmsg : jsval)
| FailedToConnect (message : string) (originalError : error)
| Clarified (original : error).

(** [err.errmsg] *)
Definition errmsg (e : error) : jsval :=
  match e with
  | DriverError _ m => m
  | _ => JUndefined
  end.

(** The object built by [new Connection(config, cb)] in [lib/connection.js]:
    its own properties are [config] and [client]. *)
Record Connection : Type := { config : jsobj; client_of : client }.

Inductive connprop : Type :=
| PUndefined
| PConfig (c : jsobj)
| PClient (h : client).

(** [_.property(name)(c)]: reading property [name] off a [Connection]
    object, or off [undefined]. *)
Definition Connection_get (c : option Connection) (name : string) : connprop :=
  match c with
  | None => PUndefined
  | Some c =>
      if String.eqb name "config" then PConfig (config c)
      else if String.eqb name "client" then PClient (client_of c)
      else PUndefined
  end.

(** Modelled from the spec: the per-collection facade of [lib/collection.js],
    which is not among the sources.  A collection entry holds the declared
    schema, the index list, the primary-key field name that [_getPK()]
    answers, and the connection it was built from. *)
Record CollectionDef : Type :=
  { def_schema : jsval; def_indexes : list (jsval * jsval); def_pk : string }.

Record Collection : Type :=
  { schema : jsval; indexes : list (jsval * jsval); _getPK : string;
    connection_of : Connection }.

Definition Collection_new (definition : CollectionDef) (db : Connection) : Collection :=
  {| schema := def_schema definition; indexes := def_indexes definition;
     _getPK := def_pk definition; connection_of := db |}.

(** What [client.db().listCollections(name)] returns to its caller.  The
    driver returns a cursor over the collections with that name, an object
    without a [length]; an array, and [null] or [undefined], are what a
    driver answering otherwise could return. *)
Inductive listing : Type :=
| Cursor (names : list string)
| Names (names : list string)
| Nullish.

(** Calls that leave the adapter: to the driver and to the collection facade. *)
Inductive call : Type :=
| MongoClient_connect (connectionString : jsval) (connectionOptions : jsobj)
| Client_close (h : client)
| Db_listCollections (h : client) (name : string)
| Db_createCollection (h : client) (name : string)
| Db_createIndex (h : client) (name : string) (index options : jsval)
| Db_dropCollection (h : client) (name : string)
| Collection_insert (c : Collection) (data : jsval)
| Collection_find (c : Collection) (criteria : jsval)
| Collection_update (c : Collection) (criteria values : jsval)
| Collection_destroy (c : Collection) (criteria : jsval).

(** The calls that ask the store to change. *)
Definition is_mutation (c : call) : bool :=
  match c with
  | Db_createCollection _ _ | Db_createIndex _ _ _ _ | Db_dropCollection _ _
  | Collection_insert _ _ | Collection_update _ _ _ | Collection_destroy _ _ => true
  | MongoClient_connect _ _ | Client_close _ | Db_listCollections _ _
  | Collection_find _ _ => false
  end.

Definition is_connect (c : call) : bool :=
  match c with MongoClient_connect _ _ => true | _ => false end.

(** What lies outside the repository: the replies of the driver and of the
    collection facade (each may depend on every call issued before), and the
    library functions [querystring.parse], [util.inspect],
    [utils.clarifyError] and the [ObjectID] constructor. *)
Record Env : Type :=
  { connect_reply : list call -> jsval -> jsobj -> option error * option client;
    close_reply : list call -> client -> option error;
    listCollections_reply : list call -> client -> string -> listing;
    createCollection_reply : list call -> client -> string -> option error;
    createIndex_reply : list call -> client -> string -> jsval -> jsval -> option error;
    dropCollection_reply : list call -> client -> string -> option error;
    insert_reply : list call -> Collection -> jsval -> option error * jsval;
    find_reply : list call -> Collection -> jsval -> option error * jsval;
    update_reply : list call -> Collection -> jsval -> jsval -> option error * jsval;
    destroy_reply : list call -> Collection -> jsval -> option error;
    querystring_parse : string -> jsobj;
    inspect : error -> string;
    clarifyError : error -> error;
    ObjectID : Type;
    ObjectID_new : jsval -> res ObjectID }.

(** An entry of the registry: [{config, collections, connection}]; the
    [connection] property is absent until the connect callback sets it. *)
Record ConnectionEntry : Type :=
  { entry_config : jsobj;
    collections : gmap string Collection;
    connection : option Connection }.

Record world : Type :=
  { connections : gmap string ConnectionEntry;
    log : list call }.

Definition set_connections (f : gmap string ConnectionEntry -> gmap string ConnectionEntry)
    (w : world) : world :=
  {| connections := f (connections w); log := log w |}.

(** State and exceptions: a [throw] keeps the writes made before it. *)
Definition M (A : Type) : Type := world -> res A * world.

#[global] Instance M_ret : MRet M := fun A a w => (Ret a, w).
#[global] Instance M_bind : MBind M := fun A B k m w =>
  match m w with
  | (Ret a, w') => k a w'
  | (Throw e, w') => (Throw e, w')
  end.
Definition throw {A} (e : exn) : M A := fun w => (Throw e, w).
Definition lift {A} (r : res A) : M A := fun w => (r, w).
Definition registry : M (gmap string ConnectionEntry) := fun w => (Ret (connections w), w).
Definition modify (f : gmap string ConnectionEntry -> gmap string ConnectionEntry) : M unit :=
  fun w => (Ret tt, set_connections f w).

(** Issue call [c] and read the reply the environment gives after the log so far. *)
Definition issue {A} (c : call) (reply : list call -> A) : M A :=
  fun w => (Ret (reply (log w)), {| connections := connections w; log := log w ++ [c] |}).

(** [async.each(items, iteratee, cb)]: the iteratee is started on every
    item; [cb] receives the first error, or nothing. *)
Fixpoint async_each {A} (items : list A) (iteratee : A -> M (option error)) : M (option error) :=
  match items with
  | [] => mret None
  | item :: rest =>
      err ← iteratee item;
      err' ← async_each rest iteratee;
      mret (match err with Some e => Some e | None => err' end)
  end.

(** What a verb's callback receives: [cb(err, result)]. *)
Inductive cb_args : Type := Cb (err : option error) (result : jsval).

End Mongo.
Import Mongo.

(** ** lib/connection.js *)

Module ConnectionJs.
Section WithEnv.
Variable E : Env.

(** [extractQueryFromUri(uri)]: [None] is the [undefined] of the bare
    [return]; calling [.split] on a truthy value that is not a string throws. *)
Definition extractQueryFromUri (uri : jsval) : res (option jsobj) :=
  if falsy uri then Ret None
  else match uri with
       | JStr s =>
           let brokenUri := split "?" s in
           if bool_decide (1 < length brokenUri)%nat
           then Ret (Some (querystring_parse E (nth 1 brokenUri "")))
           else Ret (Some ∅)
       | _ => Throw (JsTypeError "uri.split is not a function")
       end.

(** [buildConnectionString(params)] *)
Definition buildConnectionString (params : jsobj) : res string :=
  let connectionString := "mongodb://" in
  match
    (if truthy (get params "user") && truthy (get params "password") then
       if falsy (get params "database") then
         Throw (JsError "The MongoDB Adapter requires a database config option if authentication is used.")
       else
         Ret (connectionString ++
              ((toString (get params "user") ++ ":") ++ toString (get params "password")) ++ "@")
     else Ret connectionString)
  with
  | Throw e => Throw e
  | Ret connectionString =>
      let connectionString :=
        connectionString ++
        ((toString (get params "host") ++ ":") ++ toString (get params "port")) ++ "/" in
      if truthy (get params "database")
      then Ret (connectionString ++ toString (get params "database"))
      else Ret connectionString
  end.

(** The first statements of [_buildConnection]: [queryParams] and
    [availableConfiguration]. *)
Definition queryParams (config : jsobj) : res (option jsobj) :=
  if truthy (get config "url") then extractQueryFromUri (get config "uri")
  else Ret (Some ∅).

Definition availableConfiguration (config : jsobj) : res jsobj :=
  match queryParams config with
  | Throw e => Throw e
  | Ret queryParams =>
      Ret (defaults ∅ [queryParams; Some config;
                       Some {[ "useNewUrlParser" := JBool true ]}])
  end.

(** [connectionOptions] as filled in before the connection string is chosen. *)
Definition connectionOptions0 (availableConfiguration : jsobj) : jsobj :=
  if falsy (get availableConfiguration "useUnifiedTopology") then
    <[ "reconnectTries" := get availableConfiguration "reconnectTries" ]>
    (<[ "reconnectInterval" := get availableConfiguration "reconnectInterval" ]>
     (<[ "autoReconnect" := get availableConfiguration "auto_reconnect" ]>
      (<[ "readPreference" := get availableConfiguration "readPreference" ]> ∅)))
  else {[ "useUnifiedTopology" := JBool true ]}.

(** The connection string, and [availableConfiguration] after the deletes. *)
Definition connectionString (availableConfiguration : jsobj) : res (jsval * jsobj) :=
  if truthy (get availableConfiguration "url") then
    Ret (get availableConfiguration "url", delete "url" availableConfiguration)
  else
    match buildConnectionString availableConfiguration with
    | Throw e => Throw e
    | Ret s =>
        Ret (JStr s,
             fold_left (fun acc prop => if hasOwnProperty acc prop then delete prop acc else acc)
                       ["user"; "password"; "database"; "host"; "port"]
                       availableConfiguration)
    end.

Definition connectionOptions (availableConfiguration0 availableConfiguration : jsobj) : jsobj :=
  let connectionOptions := connectionOptions0 availableConfiguration0 in
  if hasOwnProperty availableConfiguration "authSource"
  then <[ "authSource" := get availableConfiguration "authSource" ]> connectionOptions
  else connectionOptions.

(** [Connection.prototype._buildConnection(cb)]: the value is what
    [MongoClient.connect] hands to [cb]. *)
Definition _buildConnection (config : jsobj) : M (option error * option client) :=
  available ← lift (availableConfiguration config);
  '(connString, available') ← lift (connectionString available);
  let options := connectionOptions available available' in
  issue (MongoClient_connect connString options)
        (fun l => connect_reply E l connString options).

(** [new Connection(config, cb)]: the value is what [cb] receives. *)
Definition Connection_new (config : jsobj) : M (error + Connection) :=
  '(err, client) ← _buildConnection config;
  match err with
  | Some err => mret (inl err)
  | None =>
      match client with
      | None => mret (inl NoDbObject)
      | Some client => mret (inr {| config := config; client_of := client |})
      end
  end.

(** [Connection.prototype._ensureIndexes] *)
Definition _ensureIndexes (h : client) (name : string) (indexes : list (jsval * jsval))
    : M (option error) :=
  async_each indexes
    (fun item => issue (Db_createIndex h name item.1 item.2)
                       (fun l => createIndex_reply E l h name item.1 item.2)).

(** [Connection.prototype.createCollection(name, collection, cb)];
    [collection] is what the caller found under the collection's name: on an
    inherited function [collection.indexes] is [undefined], over which
    [async.each] calls back at once. *)
Definition createCollection (self : Connection) (name : string) (collection : looked Collection)
    : M (option error) :=
  err ← issue (Db_createCollection (client_of self) name)
              (fun l => createCollection_reply E l (client_of self) name);
  match err with
  | Some err => mret (Some err)
  | None =>
      match collection with
      | Absent => throw (JsTypeError "Cannot read property 'indexes' of undefined")
      | Inherited => _ensureIndexes (client_of self) name []
      | Own collection => _ensureIndexes (client_of self) name (indexes collection)
      end
  end.

(** [Connection.prototype.dropCollection(name, cb)] *)
Definition dropCollection (self : Connection) (name : string) : M (option error) :=
  issue (Db_dropCollection (client_of self) name)
        (fun l => dropCollection_reply E l (client_of self) name).

End WithEnv.
End ConnectionJs.

(** ** lib/adapter.js *)

Module Adapter.
Section WithEnv.
Variable E : Env.

(** [adapter.defaults] *)
Definition adapter_defaults : jsobj :=
  list_to_map
    [ ("host", JStr "localhost"); ("database", JStr "sails"); ("port", JNum 27017);
      ("readOnly", JBool false); ("user", JNull); ("password", JNull);
      ("schema", JBool false); ("url", JNull);
      ("w", JNum 1); ("wtimeout", JNum 0); ("fsync", JBool false);
      ("journal", JBool false); ("readPreference", JNull);
      ("nativeParser", JBool false); ("forceServerObjectId", JBool false);
      ("recordQueryStats", JBool false); ("retryMiliSeconds", JNum 5000);
      ("numberOfRetries", JNum 5);
      ("ssl", JBool false); ("poolSize", JNum 50);
      ("auto_reconnect", JBool true);
      ("reconnectTries", JNum 30); ("reconnectInterval", JNum 1000);
      ("wlNext", JObj [("caseSensitive", JBool false)]) ].

Definition nl : string := String (ascii_of_nat 10) "".

Definition _createError (_err : error) : error :=
  FailedToConnect
    ("Failed to connect to MongoDB.  Are you sure your configured Mongo instance is running?"
       ++ nl ++ " Error details:" ++ nl ++ inspect E _err)
    _err.

(** [registerConnection(connection, collections, cb)] *)
Definition registerConnection (connection : jsobj) (colls : gmap string CollectionDef)
    : M cb_args :=
  if falsy (get connection "identity") then mret (Cb (Some IdentityMissing) JUndefined)
  else
    let identity := toString (get connection "identity") in
    conns ← registry;
    match js_lookup conns identity with
    | Own _ | Inherited => mret (Cb (Some IdentityDuplicate) JUndefined)
    | Absent =>
        let connection := defaults connection [Some adapter_defaults] in
        modify <[ identity := {| entry_config := connection; collections := ∅;
                                 connection := None |} ]>;;
        r ← ConnectionJs.Connection_new E connection;
        match r with
        | inl _err => mret (Cb (Some (_createError _err)) JUndefined)
        | inr db =>
            conns ← registry;
            match conns !! identity with
            | None => throw (JsTypeError "Cannot set property 'connection' of undefined")
            | Some entry =>
                modify <[ identity :=
                            {| entry_config := entry_config entry;
                               collections :=
                                 ((fun def => Collection_new def db) <$> colls)
                                   ∪ collections entry;
                               connection := Some db |} ]>;;
                mret (Cb None JUndefined)
            end
        end
    end.

(** [teardown(conn, cb)]; [conn = None] is the call [teardown(cb)]. *)
Definition teardown (conn : option jsval) : M cb_args :=
  let conn := match conn with None => JNull | Some conn => conn end in
  match conn with
  | JNull =>
      conns ← registry;
      let _connections := List.map connection (List.map snd (map_to_list conns)) in
      if bool_decide (length _connections = 0%nat) then mret (Cb None JUndefined)
      else
        let dbs := List.map (fun c => Connection_get c "db") _connections in
        if bool_decide (length dbs = 0%nat) then mret (Cb None JUndefined)
        else
          modify (fun _ => ∅);;
          err ← async_each dbs
                  (fun db => match db with
                             | PUndefined => mret None
                             | PClient h => issue (Client_close h) (fun l => close_reply E l h)
                             | PConfig _ => throw (JsTypeError "db.close is not a function")
                             end);
          mret (Cb err JUndefined)
  | _ =>
      conns ← registry;
      match js_lookup conns (toString conn) with
      | Absent => mret (Cb None JUndefined)
      | Inherited => throw (JsTypeError "Cannot read property 'client' of undefined")
      | Own entry =>
          match connection entry with
          | None => throw (JsTypeError "Cannot read property 'client' of undefined")
          | Some c =>
              issue (Client_close (client_of c)) (fun l => close_reply E l (client_of c));;
              modify (delete (toString conn));;
              mret (Cb None JUndefined)
          end
      end
  end.

(** The lookups every verb starts with: [connections[connectionName]] and
    [connectionObject.collections[collectionName]].  Under a connection name
    that is not registered the first gives [undefined], or an inherited
    function whose [collections] is [undefined]: the second throws a
    [TypeError] either way. *)
Definition lookup_connectionObject (connectionName : string) : M ConnectionEntry :=
  conns ← registry;
  match conns !! connectionName with
  | None => throw (JsTypeError "Cannot read property 'collections' of undefined")
  | Some connectionObject => mret connectionObject
  end.

(** [connectionObject.connection], about to be dereferenced for [.config]. *)
Definition live_connection (connectionObject : ConnectionEntry) : M Connection :=
  match connection connectionObject with
  | None => throw (JsTypeError "Cannot read property 'config' of undefined")
  | Some c => mret c
  end.

(** [names.length > 0] on what [listCollections] returned: a cursor has no
    [length], and [undefined > 0] is false. *)
Definition length_gt_zero (names : listing) : res bool :=
  match names with
  | Cursor _ => Ret false
  | Names names => Ret (bool_decide (0 < length names)%nat)
  | Nullish => Throw (JsTypeError "Cannot read property 'length' of undefined")
  end.

(** [describe(connectionName, collectionName, cb)] *)
Definition describe (connectionName collectionName : string) : M cb_args :=
  connectionObject ← lookup_connectionObject connectionName;
  schema ← match js_lookup (collections connectionObject) collectionName with
           | Absent => throw (JsTypeError "Cannot read property 'schema' of undefined")
           | Inherited => mret JUndefined
           | Own collection => mret (schema collection)
           end;
  match connection connectionObject with
  | None => throw (JsTypeError "Cannot read property 'client' of undefined")
  | Some c =>
      names ← issue (Db_listCollections (client_of c) collectionName)
                    (fun l => listCollections_reply E l (client_of c) collectionName);
      listed ← lift (length_gt_zero names);
      if (listed : bool) then mret (Cb None schema)
      else mret (Cb None JUndefined)
  end.

(** [define(connectionName, collectionName, definition, cb)] *)
Definition define (connectionName collectionName : string) (definition : jsval) : M cb_args :=
  connectionObject ← lookup_connectionObject connectionName;
  let collection := js_lookup (collections connectionObject) collectionName in
  c ← live_connection connectionObject;
  if truthy (get (config c) "readOnly") then mret (Cb None JUndefined)
  else
    err ← ConnectionJs.createCollection E c collectionName collection;
    mret (Cb err JUndefined).

(** [drop(connectionName, collectionName, relations, cb)] *)
Definition drop (connectionName collectionName : string) (relations : jsval) : M cb_args :=
  connectionObject ← lookup_connectionObject connectionName;
  let collection := collections connectionObject !! collectionName in
  c ← live_connection connectionObject;
  if truthy (get (config c) "readOnly") then mret (Cb None JUndefined)
  else
    err ← ConnectionJs.dropCollection E c collectionName;
    match err with
    | Some e =>
        if strict_eq_str (errmsg e) "ns not found" then mret (Cb None JUndefined)
        else mret (Cb (Some e) JUndefined)
    | None => mret (Cb None JUndefined)
    end.

(** [mongo.objectId(id)]; [None] is [null]. *)
Definition objectId (id : jsval) : res (option (ObjectID E)) :=
  if falsy id then Ret None
  else match ObjectID_new E id with
       | Ret o => Ret (Some o)
       | Throw err => Ret None
       end.

(** [results[0]] and [data.length === 0] on a JS value. *)
Definition index0 (v : jsval) : res jsval :=
  match v with
  | JUndefined | JNull => Throw (JsTypeError "Cannot read property '0' of undefined")
  | JArr xs => Ret (nth 0 xs JUndefined)
  | JStr (String c _) => Ret (JStr (String c ""))
  | JObj fields => Ret (default JUndefined (snd <$> List.find (fun kv => String.eqb kv.1 "0") fields))
  | _ => Ret JUndefined
  end.

Definition length_is_zero (v : jsval) : res bool :=
  match v with
  | JUndefined | JNull => Throw (JsTypeError "Cannot read property 'length' of undefined")
  | JArr xs => Ret (bool_decide (length xs = 0%nat))
  | JStr s => Ret (String.eqb s "")
  | JObj fields =>
      Ret (match snd <$> List.find (fun kv => String.eqb kv.1 "length") fields with
           | Some (JNum 0) => true
           | _ => false
           end)
  | _ => Ret false
  end.

(** [collection.m(...)] on a collection that may be [undefined]; what is
    found under an inherited name is a function without the method [m], and
    calling it throws a [TypeError] as well. *)
Definition the_collection (method : string) (collection : option Collection) : M Collection :=
  match collection with
  | None => throw (JsTypeError ("Cannot read property '" ++ method ++ "' of undefined"))
  | Some collection => mret collection
  end.

(** [create(connectionName, collectionName, data, cb)] *)
Definition create (connectionName collectionName : string) (data : jsval) : M cb_args :=
  connectionObject ← lookup_connectionObject connectionName;
  let collection := collections connectionObject !! collectionName in
  c ← live_connection connectionObject;
  if truthy (get (config c) "readOnly") then mret (Cb None JUndefined)
  else
    collection ← the_collection "insert" collection;
    '(err, results) ← issue (Collection_insert collection data)
                            (fun l => insert_reply E l collection data);
    match err with
    | Some err => mret (Cb (Some (clarifyError E err)) JUndefined)
    | None => r ← lift (index0 results); mret (Cb None r)
    end.

(** [createEach(connectionName, collectionName, data, cb)] *)
Definition createEach (connectionName collectionName : string) (data : jsval) : M cb_args :=
  empty ← lift (length_is_zero data);
  if (empty : bool) then mret (Cb None (JArr []))
  else
    connectionObject ← lookup_connectionObject connectionName;
    collection ← the_collection "insert" (collections connectionObject !! collectionName);
    '(err, results) ← issue (Collection_insert collection data)
                            (fun l => insert_reply E l collection data);
    match err with
    | Some err => mret (Cb (Some (clarifyError E err)) JUndefined)
    | None => mret (Cb None results)
    end.

(** [options = options || {}] *)
Definition or_empty (options : jsval) : jsval :=
  if truthy options then options else JObj [].

(** [update(connectionName, collectionName, options, values, cb)] *)
Definition update (connectionName collectionName : string) (options values : jsval) : M cb_args :=
  let options := or_empty options in
  connectionObject ← lookup_connectionObject connectionName;
  let collection := collections connectionObject !! collectionName in
  c ← live_connection connectionObject;
  if truthy (get (config c) "readOnly") then mret (Cb None JUndefined)
  else
    collection ← the_collection "update" collection;
    '(err, results) ← issue (Collection_update collection options values)
                            (fun l => update_reply E l collection options values);
    match err with
    | Some err => mret (Cb (Some (clarifyError E err)) JUndefined)
    | None => mret (Cb None results)
    end.

(** [destroy(connectionName, collectionName, options, cb)] *)
Definition destroy (connectionName collectionName : string) (options : jsval) : M cb_args :=
  let options := or_empty options in
  connectionObject ← lookup_connectionObject connectionName;
  let collection := collections connectionObject !! collectionName in
  c ← live_connection connectionObject;
  if truthy (get (config c) "readOnly") then mret (Cb None JUndefined)
  else
    collection ← the_collection "find" collection;
    '(err, results) ← issue (Collection_find collection options)
                            (fun l => find_reply E l collection options);
    match err with
    | Some err => mret (Cb (Some err) JUndefined)
    | None =>
        err ← issue (Collection_destroy collection options)
                    (fun l => destroy_reply E l collection options);
        match err with
        | Some err => mret (Cb (Some err) JUndefined)
        | None => mret (Cb None results)
        end
    end.

(** The [$getPK] callback that [join(connectionName, ...)] hands to the
    join planner; [JUndefined] is the bare [return].  An inherited function
    passes both guards: under the connection's name its [collections] is
    [undefined] and indexing it throws, under the collection's name it has no
    [_getPK] to call. *)
Definition getPK (connectionName : string) (collectionIdentity : jsval) : M jsval :=
  if falsy collectionIdentity then mret JUndefined
  else
    conns ← registry;
    match js_lookup conns connectionName with
    | Absent =>
        throw (JsError ("Consistency violation in sails-mongo: Unrecognized datastore (i.e. connection): `"
                          ++ connectionName ++ "`."))
    | Inherited => throw (JsTypeError "Cannot read property of undefined")
    | Own connectionObject =>
        match js_lookup (collections connectionObject) (toString collectionIdentity) with
        | Absent =>
            throw (JsError ("Consistency violation in sails-mongo: Unrecognized collection: `"
                              ++ toString collectionIdentity
                              ++ "` in datastore (i.e. connection): `" ++ connectionName ++ "`."))
        | Inherited => throw (JsTypeError "collection._getPK is not a function")
        | Own collection => mret (JStr (_getPK collection))
        end
    end.

(** [find(connectionName, collectionName, options, cb)] *)
Definition find (connectionName collectionName : string) (options : jsval) : M cb_args :=
  let options := or_empty options in
  connectionObject ← lookup_connectionObject connectionName;
  collection ← the_collection "find" (collections connectionObject !! collectionName);
  '(err, results) ← issue (Collection_find collection options)
                          (fun l => find_reply E l collection options);
  match err with
  | Some err => mret (Cb (Some err) JUndefined)
  | None => mret (Cb None results)
  end.

(** The [$find] callback that [join(connectionName, ...)] hands to the
    join planner: the planner's callback receives what [collection.find]
    answers. *)
Definition find_ (connectionName : string) (collectionIdentity : jsval) (criteria : jsval)
    : M (option error * jsval) :=
  connectionObject ← lookup_connectionObject connectionName;
  collection ← the_collection "find"
                 (collections connectionObject !! toString collectionIdentity);
  issue (Collection_find collection criteria) (fun l => find_reply E l collection criteria).

End WithEnv.
End Adapter.

(** ** lib/connection.js, the earlier of the two versions in the sources *)

Module ConnectionJs0.
Section WithEnv.
Variable E : Env.

(** [Connection.prototype._buildConnection(cb)]: the options are read off
    the configuration, the connection string is built in place, and a
    configured [url] replaces it. *)
Definition _buildConnection (config : jsobj) : M (option error * option client) :=
  let connectionOptions : jsobj :=
    <[ "useNewUrlParser" := JBool true ]>
    (<[ "reconnectTries" := get config "reconnectTries" ]>
     (<[ "reconnectInterval" := get config "reconnectInterval" ]>
      (<[ "autoReconnect" := get config "auto_reconnect" ]>
       (<[ "poolSize" := get config "poolSize" ]>
        (<[ "sslKey" := get config "sslKey" ]>
         (<[ "sslCert" := get config "sslCert" ]>
          (<[ "sslCA" := get config "sslCA" ]>
           (<[ "sslValidate" := get config "sslValidate" ]>
            (<[ "ssl" := get config "ssl" ]>
             (<[ "readPreference" := get config "readPreference" ]> ∅)))))))))) in
  let connectionString := "mongodb://" in
  connectionString ←
    (if truthy (get config "user") && truthy (get config "password") then
       if falsy (get config "database") then
         throw (JsError "The MongoDB Adapter requires a database config option if authentication is used.")
       else
         mret (connectionString ++
               ((toString (get config "user") ++ ":") ++ toString (get config "password")) ++ "@")
     else mret connectionString);
  let connectionString :=
    connectionString ++
    ((toString (get config "host") ++ ":") ++ toString (get config "port")) ++ "/" in
  let connectionString :=
    if truthy (get config "database")
    then connectionString ++ toString (get config "database")
    else connectionString in
  let connectionString :=
    if truthy (get config "url") then get config "url" else JStr connectionString in
  issue (MongoClient_connect connectionString connectionOptions)
        (fun l => connect_reply E l connectionString connectionOptions).

End WithEnv.
End ConnectionJs0.

(** ** Concrete environments and inputs, for running the embedding *)

Module Sample.

(** A reading of [querystring.parse] that agrees with Node's on strings of
    distinct, unescaped [key=value] pairs. *)
Definition parse_pair (kv : string) : string * jsval :=
  match split "=" kv with
  | k :: v :: _ => (k, JStr v)
  | k :: [] => (k, JStr "")
  | [] => ("", JStr "")
  end.

Definition simple_parse (q : string) : jsobj :=
  if String.eqb q "" then ∅ else list_to_map (List.map parse_pair (split "&" q)).

(** A driver whose connect and drop replies are fixed, whose
    [listCollections] returns a cursor over [names], and which accepts every
    other call. *)
Definition env (connect : option error * option client) (dropped : option error)
    (names : list string) : Env :=
  {| connect_reply := fun _ _ _ => connect;
     close_reply := fun _ _ => None;
     listCollections_reply := fun _ _ _ => Cursor names;
     createCollection_reply := fun _ _ _ => None;
     createIndex_reply := fun _ _ _ _ _ => None;
     dropCollection_reply := fun _ _ _ => dropped;
     insert_reply := fun _ _ data => (None, match data with JArr _ => data | _ => JArr [data] end);
     find_reply := fun _ _ _ => (None, JArr []);
     update_reply := fun _ _ _ _ => (None, JArr []);
     destroy_reply := fun _ _ _ => None;
     querystring_parse := simple_parse;
     inspect := fun _ => "[Error]";
     clarifyError := Clarified;
     ObjectID := string;
     ObjectID_new := fun id =>
       match id with
       | JStr s => if (String.length s =? 24)%nat then Ret s
                   else Throw (JsError "Argument passed in must be a string of 24 hex characters")
       | _ => Throw (JsError "Argument passed in must be a string of 24 hex characters")
       end |}.

(** [E], except that [listCollections] returns [reply]. *)
Definition with_listing (E : Env) (reply : listing) : Env :=
  {| connect_reply := connect_reply E;
     close_reply := close_reply E;
     listCollections_reply := fun _ _ _ => reply;
     createCollection_reply := createCollection_reply E;
     createIndex_reply := createIndex_reply E;
     dropCollection_reply := dropCollection_reply E;
     insert_reply := insert_reply E;
     find_reply := find_reply E;
     update_reply := update_reply E;
     destroy_reply := destroy_reply E;
     querystring_parse := querystring_parse E;
     inspect := inspect E;
     clarifyError := clarifyError E;
     ObjectID := ObjectID E;
     ObjectID_new := ObjectID_new E |}.

Definition up : Env := env (None, Some 7%nat) None ["users"].
Definition down : Env := env (Some (DriverError "connect ECONNREFUSED" JUndefined), None) None [].

Definition empty_world : world := {| connections := ∅; log := [] |}.

Definition users_def : CollectionDef :=
  {| def_schema := JObj [("name", JObj [("type", JStr "string")])];
     def_indexes := [];
     def_pk := "id" |}.

(** A registry holding one live connection [c] under ["db"], with the
    collection ["users"]. *)
Definition live (cfg : jsobj) : Connection := {| config := cfg; client_of := 7%nat |}.

Definition one_connection (cfg : jsobj) : world :=
  {| connections :=
       {[ "db" := {| entry_config := cfg;
                     collections := {[ "users" := Collection_new users_def (live cfg) ]};
                     connection := Some (live cfg) |} ]};
     log := [] |}.

Definition read_only_config : jsobj :=
  <[ "readOnly" := JBool true ]> (<[ "identity" := JStr "db" ]> Adapter.adapter_defaults).

Definition writable_config : jsobj := <[ "identity" := JStr "db" ]> Adapter.adapter_defaults.

End Sample.

(** ** Vocabulary of the statements *)

Definition exactly_one_credential (params : jsobj) : bool :=
  xorb (truthy (get params "user")) (truthy (get params "password")).

(** [host:port/] followed by the optional database segment. *)
Definition host_port_database (params : jsobj) : string :=
  ((toString (get params "host") ++ ":") ++ toString (get params "port")) ++ "/"
  ++ (if truthy (get params "database") then toString (get params "database") else "").

Definition credentials (params : jsobj) : string :=
  ((toString (get params "user") ++ ":") ++ toString (get params "password")) ++ "@".

(** The first value of a list that is not [undefined]. *)
Fixpoint first_defined (vs : list jsval) : jsval :=
  match vs with
  | [] => JUndefined
  | v :: rest => if is_undefined v then first_defined rest else v
  end.

(** The query string of a URL as [extractQueryFromUri] reads it: what lies
    between the first and the second [?]. *)
Definition query_of (E : Env) (url : string) : jsobj :=
  match split "?" url with
  | _ :: q :: _ => querystring_parse E q
  | _ => ∅
  end.

Definition database_required : exn :=
  JsError "The MongoDB Adapter requires a database config option if authentication is used.".

(** What [_buildConnection] hands to [MongoClient.connect]: the connection
    string and the options, or the exception thrown on the way. *)
Definition connect_call (E : Env) (config : jsobj) : res (jsval * jsobj) :=
  match ConnectionJs.availableConfiguration E config with
  | Throw e => Throw e
  | Ret available =>
      match ConnectionJs.connectionString available with
      | Throw e => Throw e
      | Ret (s, available') => Ret (s, ConnectionJs.connectionOptions available available')
      end
  end.

(** The value name [k] resolves to when the URL [url] stands in both the
    [url] and the [uri] field: query parameter, else configuration field,
    else the fallback. *)
Definition layer (E : Env) (url : string) (config : jsobj) (k : string) : jsval :=
  first_defined [get (query_of E url) k; get config k;
                 get {[ "useNewUrlParser" := JBool true ]} k].

(** The entry stored before the connection is opened. *)
Definition pending_entry (connection : jsobj) : ConnectionEntry :=
  {| entry_config := defaults connection [Some Adapter.adapter_defaults];
     collections := ∅;
     connection := None |}.

Ltac run :=
  unfold mbind, M_bind, mret, M_ret, registry, modify, issue, lift, throw, set_connections;
  cbn [connections log fst snd].

(** A computation that leaves the registry as it found it. *)
Definition keeps_registry {A} (m : M A) : Prop :=
  forall w, connections (m w).2 = connections w.

Definition is_TypeError {A} (r : res A) : bool :=
  match r with Throw (JsTypeError _) => true | _ => false end.

(** A computation all of whose calls are reads. *)
Definition only_reads {A} (m : M A) : Prop :=
  forall w, exists calls,
    log (m w).2 = (log w ++ calls)%list /\ forallb (fun c => negb (is_mutation c)) calls = true.

(** World [w] after the calls [calls] have been issued. *)
Definition after (w : world) (calls : list call) : world :=
  {| connections := connections w; log := log w ++ calls |}.

(** Whether character [c] occurs in [s]. *)
Fixpoint occurs (c : ascii) (s : string) : bool :=
  match s with
  | EmptyString => false
  | String c' s' => Ascii.eqb c' c || occurs c s'
  end.

(** The connection strings of the connect calls of a log. *)
Definition connect_strings (l : list call) : list jsval :=
  omap (fun c => match c with MongoClient_connect s _ => Some s | _ => None end) l.

(** The option names of the two families of [_buildConnection]. *)
Definition legacy_options : gset string :=
  {[ "readPreference"; "autoReconnect"; "reconnectInterval"; "reconnectTries" ]}.

Definition unified_options : gset string := {[ "useUnifiedTopology" ]}.

(** ** Sample inputs *)

Definition url_with_authSource : string := "mongodb://h:27017/db?authSource=admin".

Definition config_with_authSource : jsobj :=
  <[ "url" := JStr url_with_authSource ]>
    (<[ "uri" := JStr url_with_authSource ]> (<[ "authSource" := JStr "other" ]> ∅)).

Definition credentials_without_database : jsobj :=
  <[ "identity" := JStr "db" ]> (<[ "user" := JStr "u" ]> (<[ "password" := JStr "p" ]>
    (<[ "database" := JNull ]> ∅))).

Definition credentials_with_url : jsobj :=
  <[ "url" := JStr "mongodb://u:p@h:27017" ]> credentials_without_database.

Definition a_document : jsval := JObj [("name", JStr "ann")].

Definition ns_not_found : error := DriverError "ns not found" (JStr "ns not found").

Definition small_config : jsobj := {[ "identity" := JStr "db" ]}.

Definition small_read_only_config : jsobj := <[ "readOnly" := JBool true ]> small_config.

Definition indexed_users : Collection :=
  {| schema := def_schema Sample.users_def;
     indexes := [(JObj [("name", JNum 1)], JObj [("unique", JBool true)]);
                 (JObj [("age", JNum 1)], JObj [])];
     _getPK := "id";
     connection_of := Sample.live small_config |}.

Definition indexed_world : world :=
  {| connections :=
       {[ "db" := {| entry_config := small_config;
                     collections := {[ "users" := indexed_users ]};
                     connection := Some (Sample.live small_config) |} ]};
     log := [] |}.

Definition url_and_lone_user : jsobj :=
  <[ "url" := JStr "mongodb://h:27017/db" ]> (<[ "user" := JStr "bob" ]> ∅).

Definition host_and_port : jsobj :=
  <[ "host" := JStr "localhost" ]> (<[ "port" := JNum 27017 ]> ∅).

Definition url_and_credentials : jsobj :=
  <[ "url" := JStr "mongodb://h:27017" ]>
    (<[ "user" := JStr "u" ]> (<[ "password" := JStr "p" ]> ∅)).

(** * Properties *)

(** ** [mongo.objectId] *)

(** C10: [mongo.objectId] never throws: it returns [null] when the input is
    falsy or when constructing the ObjectID raises, and the constructed
    ObjectID otherwise. *)
Theorem objectId_never_throws (E : Env) (id : jsval) :
  exists r : option (ObjectID E),
    Adapter.objectId E id = Ret r /\
    (r = None <-> falsy id = true \/ exists err, ObjectID_new E id = Throw err) /\
    (forall o, r = Some o <-> falsy id = false /\ ObjectID_new E id = Ret o).
Proof.
  unfold Adapter.objectId.
  destruct (falsy id) eqn:Hf.
  - exists None. split; [reflexivity|]. split.
    + split; auto.
    + intros o. split; [discriminate | intros [H _]; discriminate].
  - destruct (ObjectID_new E id) as [o|e] eqn:Hn.
    + exists (Some o). split; [reflexivity|]. split.
      * split; [discriminate | intros [H|[err H]]; discriminate].
      * intros o'. split; [intros H; split; congruence | intros [_ H]; congruence].
    + exists None. split; [reflexivity|]. split.
      * split; eauto.
      * intros o. split; [discriminate | intros [_ H]; discriminate].
Qed.

Example objectId_sample :
  Adapter.objectId Sample.up (JStr "0123456789abcdef01234567") = Ret (Some "0123456789abcdef01234567")
  /\ Adapter.objectId Sample.up (JStr "zz") = Ret None
  /\ Adapter.objectId Sample.up JUndefined = Ret None.
Proof. repeat split. Qed.

(** ** [buildConnectionString] *)

Lemma append_assoc (a b c : string) : (a ++ b) ++ c = a ++ (b ++ c).
Proof. induction a as [|ch a IH]; [reflexivity | exact (f_equal (String ch) IH)]. Qed.

Lemma append_empty_r (a : string) : a ++ "" = a.
Proof. induction a as [|ch a IH]; [reflexivity | exact (f_equal (String ch) IH)]. Qed.

Lemma buildConnectionString_cases (params : jsobj) :
  ConnectionJs.buildConnectionString params =
    if truthy (get params "user") && truthy (get params "password") then
      if truthy (get params "database")
      then Ret ("mongodb://" ++ credentials params ++ host_port_database params)
      else Throw (JsError "The MongoDB Adapter requires a database config option if authentication is used.")
    else Ret ("mongodb://" ++ host_port_database params).
Proof.
  unfold ConnectionJs.buildConnectionString, host_port_database, credentials, falsy.
  destruct (truthy (get params "user") && truthy (get params "password"));
    destruct (truthy (get params "database")); cbn [negb];
    rewrite ?append_assoc, ?append_empty_r; reflexivity.
Qed.

(** C6, as the code has it: the [user:password@] segment is emitted exactly
    when user and password are both non-empty, in which case a missing
    database is a thrown configuration error; in every other case, also when
    exactly one of the two is present, the string is built without the
    segment and nothing is thrown. *)
Theorem buildConnectionString_credentials (params : jsobj) :
  ConnectionJs.buildConnectionString params =
    if truthy (get params "user") && truthy (get params "password") then
      if truthy (get params "database")
      then Ret ("mongodb://" ++ credentials params ++ host_port_database params)
      else Throw (JsError "The MongoDB Adapter requires a database config option if authentication is used.")
    else Ret ("mongodb://" ++ host_port_database params).
Proof. apply buildConnectionString_cases. Qed.

(** C6, counterexample to the claim as stated: with a user and no password
    the connection string is built, and no validation error is raised. *)
Lemma buildConnectionString_lone_user_accepted :
  let params : jsobj :=
    <[ "user" := JStr "bob" ]> (<[ "host" := JStr "localhost" ]> (<[ "port" := JNum 27017 ]>
      (<[ "database" := JStr "sails" ]> ∅))) in
  exactly_one_credential params = true /\
  ConnectionJs.buildConnectionString params = Ret "mongodb://localhost:27017/sails" /\
  ~ (exists e, ConnectionJs.buildConnectionString params = Throw e).
Proof.
  cbv zeta. split; [reflexivity|]. 
  assert (H : ConnectionJs.buildConnectionString
            (<[ "user" := JStr "bob" ]> (<[ "host" := JStr "localhost" ]> (<[ "port" := JNum 27017 ]>
              (<[ "database" := JStr "sails" ]> ∅))))
          = Ret "mongodb://localhost:27017/sails") by (vm_compute; reflexivity).
  split; [exact H|]. intros [e He]. rewrite H in He. discriminate.
Qed.

(** ** [_.defaults] and the layered configuration *)

Lemma get_defaults1 (object source : jsobj) (k : string) :
  get (defaults1 object source) k = first_defined [get object k; get source k].
Proof.
  unfold get, defaults1. rewrite lookup_merge.
  destruct (object !! k) as [[]|], (source !! k) as [[]|]; reflexivity.
Qed.

Lemma get_empty (k : string) : get ∅ k = JUndefined.
Proof. unfold get. now rewrite lookup_empty. Qed.

Lemma first_defined_undefined (vs : list jsval) :
  first_defined (JUndefined :: vs) = first_defined vs.
Proof. reflexivity. Qed.

Lemma first_defined_nest (a b : jsval) (vs : list jsval) :
  first_defined (first_defined [a; b] :: vs) = first_defined (a :: b :: vs).
Proof. destruct a, b; reflexivity. Qed.

Lemma get_defaults_three (q c d : jsobj) (k : string) :
  get (defaults ∅ [Some q; Some c; Some d]) k = first_defined [get q k; get c k; get d k].
Proof.
  unfold defaults; cbn [fold_left].
  rewrite !get_defaults1, get_empty, first_defined_undefined.
  rewrite first_defined_nest.
  destruct (get q k), (get c k), (get d k); reflexivity.
Qed.

Lemma extractQueryFromUri_string (E : Env) (s : string) :
  s <> "" -> ConnectionJs.extractQueryFromUri E (JStr s) = Ret (Some (query_of E s)).
Proof.
  intros Hs. unfold ConnectionJs.extractQueryFromUri, query_of, falsy, truthy.
  destruct (String.eqb_spec s ""); [contradiction|]. cbn [negb].
  destruct (split "?" s) as [|a [|b l]]; reflexivity.
Qed.

Lemma availableConfiguration_layered (E : Env) (config : jsobj) (url : string) :
  url <> "" ->
  get config "url" = JStr url ->
  get config "uri" = JStr url ->
  exists available,
    ConnectionJs.availableConfiguration E config = Ret available /\
    forall k, get available k = layer E url config k.
Proof.
  intros Hne Hurl Huri.
  unfold ConnectionJs.availableConfiguration, ConnectionJs.queryParams.
  rewrite Hurl, Huri. unfold truthy.
  destruct (String.eqb_spec url ""); [contradiction|]. cbn [negb].
  rewrite extractQueryFromUri_string by assumption.
  eexists; split; [reflexivity|]. intros k. apply get_defaults_three.
Qed.

Lemma lookup_after_deletes (a : jsobj) (props : list string) (k : string) :
  k ∉ props ->
  fold_left (fun acc prop => if hasOwnProperty acc prop then delete prop acc else acc) props a
    !! k = a !! k.
Proof.
  revert a. induction props as [|p props IH]; intros a Hk; [reflexivity|].
  cbn [fold_left]. rewrite IH by set_solver.
  destruct (hasOwnProperty a p); [|reflexivity].
  apply lookup_delete_ne. set_solver.
Qed.

Lemma connectionString_keeps_authSource (a a' : jsobj) (s : jsval) :
  ConnectionJs.connectionString a = Ret (s, a') -> a' !! "authSource" = a !! "authSource".
Proof.
  unfold ConnectionJs.connectionString.
  destruct (truthy (get a "url")).
  - intros [= _ <-]. now apply lookup_delete_ne.
  - destruct (ConnectionJs.buildConnectionString a); [|discriminate].
    intros [= _ <-].
    refine (lookup_after_deletes a ["user"; "password"; "database"; "host"; "port"] _ _).
    rewrite !elem_of_cons, elem_of_nil. intros [|[|[|[|[|]]]]]; try discriminate; done.
Qed.

Lemma connectionString_url (a a' : jsobj) (s : jsval) :
  ConnectionJs.connectionString a = Ret (s, a') ->
  truthy (get a "url") = true -> s = get a "url".
Proof.
  unfold ConnectionJs.connectionString. intros H Hurl. rewrite Hurl in H. congruence.
Qed.

Lemma connectionString_throws (a : jsobj) (e : exn) :
  ConnectionJs.connectionString a = Throw e -> truthy (get a "url") = false.
Proof.
  unfold ConnectionJs.connectionString.
  destruct (truthy (get a "url")); [discriminate | reflexivity].
Qed.

(** The values of the options, read off the merged configuration. *)
Lemma connectionOptions_values (a a' : jsobj) :
  a' !! "authSource" = a !! "authSource" ->
  let o := ConnectionJs.connectionOptions a a' in
  (if truthy (get a "useUnifiedTopology")
   then o !! "useUnifiedTopology" = Some (JBool true)
   else o !! "readPreference" = Some (get a "readPreference") /\
        o !! "autoReconnect" = Some (get a "auto_reconnect") /\
        o !! "reconnectInterval" = Some (get a "reconnectInterval") /\
        o !! "reconnectTries" = Some (get a "reconnectTries")) /\
  (get a "authSource" <> JUndefined -> o !! "authSource" = Some (get a "authSource")).
Proof.
  intros Hauth o. subst o.
  unfold ConnectionJs.connectionOptions, ConnectionJs.connectionOptions0, hasOwnProperty, falsy.
  assert (Hget : get a' "authSource" = get a "authSource") by (unfold get; now rewrite Hauth).
  rewrite Hget, Hauth. split.
  - destruct (truthy (get a "useUnifiedTopology")); cbn [negb];
      case_bool_decide; repeat split; simplify_map_eq; reflexivity.
  - intros Hdef. rewrite bool_decide_eq_true_2.
    + apply lookup_insert_eq.
    + unfold get in Hdef. destruct (a !! "authSource"); [eauto | contradiction].
Qed.

(** C3, as the code has it: when the configuration's [url] is a non-empty
    string and its [uri] field holds the same string, [_buildConnection]
    resolves every name to the first defined value among the parameter
    parsed from the URL's query string, the configuration field of that name
    and the fallback [useNewUrlParser = true], the query parameter taking
    precedence over the configuration field, and the options it hands to
    [MongoClient.connect] carry the values so resolved: [readPreference],
    [autoReconnect] (from [auto_reconnect]), [reconnectInterval] and
    [reconnectTries], or [useUnifiedTopology] alone when that name resolves
    to a truthy value, and [authSource] when it resolves to a value.  It
    throws, before the call, only when [url] resolves to an empty value. *)
Theorem connect_options_layers (E : Env) (config : jsobj) (url : string) (w : world) :
  url <> "" ->
  get config "url" = JStr url ->
  get config "uri" = JStr url ->
  match ConnectionJs._buildConnection E config w with
  | (Throw _, w') => w' = w /\ truthy (layer E url config "url") = false
  | (Ret reply, w') =>
      exists s o,
        w' = after w [MongoClient_connect s o] /\
        reply = connect_reply E (log w) s o /\
        (truthy (layer E url config "url") = true -> s = layer E url config "url") /\
        (if truthy (layer E url config "useUnifiedTopology")
         then o !! "useUnifiedTopology" = Some (JBool true)
         else o !! "readPreference" = Some (layer E url config "readPreference") /\
              o !! "autoReconnect" = Some (layer E url config "auto_reconnect") /\
              o !! "reconnectInterval" = Some (layer E url config "reconnectInterval") /\
              o !! "reconnectTries" = Some (layer E url config "reconnectTries")) /\
        (layer E url config "authSource" <> JUndefined ->
         o !! "authSource" = Some (layer E url config "authSource"))
  end.
Proof.
  intros Hne Hurl Huri.
  destruct (availableConfiguration_layered E config url Hne Hurl Huri) as (a & Ha & Hlayer).
  unfold ConnectionJs._buildConnection, after. run. rewrite Ha.
  destruct (ConnectionJs.connectionString a) as [[s a']|e] eqn:Hs.
  - exists s, (ConnectionJs.connectionOptions a a').
    split; [reflexivity|]. split; [reflexivity|].
    rewrite <- !Hlayer. split.
    + now apply (connectionString_url a a').
    + apply connectionOptions_values. now apply (connectionString_keeps_authSource a a' s).
  - split; [reflexivity|]. rewrite <- Hlayer. now apply (connectionString_throws a e).
Qed.

Lemma connect_options_layers_witness :
  match ConnectionJs._buildConnection Sample.up config_with_authSource Sample.empty_world with
  | (Throw _, w') =>
      w' = Sample.empty_world /\
      truthy (layer Sample.up url_with_authSource config_with_authSource "url") = false
  | (Ret reply, w') =>
      exists s o,
        w' = after Sample.empty_world [MongoClient_connect s o] /\
        reply = connect_reply Sample.up (log Sample.empty_world) s o /\
        (truthy (layer Sample.up url_with_authSource config_with_authSource "url") = true ->
         s = layer Sample.up url_with_authSource config_with_authSource "url") /\
        (if truthy (layer Sample.up url_with_authSource config_with_authSource
                      "useUnifiedTopology")
         then o !! "useUnifiedTopology" = Some (JBool true)
         else o !! "readPreference"
                = Some (layer Sample.up url_with_authSource config_with_authSource
                          "readPreference") /\
              o !! "autoReconnect"
                = Some (layer Sample.up url_with_authSource config_with_authSource
                          "auto_reconnect") /\
              o !! "reconnectInterval"
                = Some (layer Sample.up url_with_authSource config_with_authSource
                          "reconnectInterval") /\
              o !! "reconnectTries"
                = Some (layer Sample.up url_with_authSource config_with_authSource
                          "reconnectTries")) /\
        (layer Sample.up url_with_authSource config_with_authSource "authSource" <> JUndefined ->
         o !! "authSource"
           = Some (layer Sample.up url_with_authSource config_with_authSource "authSource"))
  end.
Proof.
  apply (connect_options_layers Sample.up config_with_authSource url_with_authSource
           Sample.empty_world).
  - discriminate.
  - vm_compute. reflexivity.
  - vm_compute. reflexivity.
Defined.

(** The resolved value at that input: the query string's [authSource] wins
    over the configured one. *)
Example layer_authSource :
  layer Sample.up url_with_authSource config_with_authSource "authSource" = JStr "admin".
Proof. vm_compute. reflexivity. Qed.

(** C3, counterexample to the claim as stated: the configuration sets
    [authSource] explicitly and the URL's query string carries another
    [authSource]; the connect options get the query string's value. *)
Lemma query_parameter_overrides_discrete_field :
  get config_with_authSource "authSource" = JStr "other" /\
  exists connString options reply,
    ConnectionJs._buildConnection Sample.up config_with_authSource Sample.empty_world
      = (Ret reply, {| connections := ∅;
                       log := [MongoClient_connect connString options] |}) /\
    get options "authSource" = JStr "admin".
Proof.
  split; [reflexivity|].
  eexists _, _, _. split; [vm_compute; reflexivity|]. vm_compute. reflexivity.
Qed.

(** The query string is read off the [uri] field: with only [url] set, the
    URL's parameters do not reach the merged configuration. *)
Example availableConfiguration_reads_uri :
  let config : jsobj := {[ "url" := JStr url_with_authSource ]} in
  exists available,
    ConnectionJs.availableConfiguration Sample.up config = Ret available /\
    get available "authSource" = JUndefined.
Proof. eexists. split; vm_compute; reflexivity. Qed.

(** ** Credentials without a database *)

Lemma first_defined_truthy (v : jsval) (vs : list jsval) :
  truthy v = true -> first_defined (v :: vs) = v.
Proof. destruct v; simpl; congruence. Qed.

Lemma first_defined_defined (v : jsval) (vs : list jsval) :
  v <> JUndefined -> first_defined (v :: vs) = v.
Proof. destruct v; simpl; congruence. Qed.

Lemma get_merged_defaults (connection : jsobj) (k : string) :
  get (defaults connection [Some Adapter.adapter_defaults]) k
  = first_defined [get connection k; get Adapter.adapter_defaults k].
Proof. unfold defaults; cbn [fold_left]. apply get_defaults1. Qed.

(** Credentials without a database and without a URL: [_buildConnection]
    throws before [MongoClient.connect] is reached. *)
Lemma buildConnection_database_required (E : Env) (config : jsobj) (w : world) :
  truthy (get config "url") = false ->
  truthy (get config "user") = true ->
  truthy (get config "password") = true ->
  truthy (get config "database") = false ->
  ConnectionJs._buildConnection E config w = (Throw database_required, w).
Proof.
  intros Hurl Huser Hpw Hdb.
  unfold ConnectionJs._buildConnection, ConnectionJs.availableConfiguration,
    ConnectionJs.queryParams.
  rewrite Hurl. run.
  set (a := defaults ∅ _).
  assert (Hget : forall k, k <> "useNewUrlParser" -> get a k = get config k).
  { intros k Hk. subst a. rewrite get_defaults_three, get_empty, first_defined_undefined.
    unfold get at 2. rewrite lookup_singleton_ne by congruence. cbn [default].
    destruct (get config k); reflexivity. }
  unfold ConnectionJs.connectionString.
  rewrite (Hget "url") by discriminate. rewrite Hurl.
  rewrite buildConnectionString_cases.
  rewrite (Hget "user"), (Hget "password"), (Hget "database") by discriminate.
  rewrite Huser, Hpw, Hdb. reflexivity.
Qed.

(** ** [registerConnection] *)

Lemma js_lookup_absent {V} (o : gmap string V) (k : string) :
  o !! k = None -> inherited k = false -> js_lookup o k = Absent.
Proof. intros Ho Hk. unfold js_lookup. now rewrite Ho, Hk. Qed.

Lemma js_lookup_own {V} (o : gmap string V) (k : string) (v : V) :
  o !! k = Some v -> js_lookup o k = Own v.
Proof. intros Ho. unfold js_lookup. now rewrite Ho. Qed.

Lemma js_lookup_inherited {V} (o : gmap string V) (k : string) :
  o !! k = None -> inherited k = true -> js_lookup o k = Inherited.
Proof. intros Ho Hk. unfold js_lookup. now rewrite Ho, Hk. Qed.

(** [_buildConnection] is the connect call it computes, or the exception
    thrown while computing it. *)
Lemma buildConnection_connect_call (E : Env) (config : jsobj) (w : world) :
  ConnectionJs._buildConnection E config w
  = match connect_call E config with
    | Throw e => (Throw e, w)
    | Ret (s, o) =>
        (Ret (connect_reply E (log w) s o), after w [MongoClient_connect s o])
    end.
Proof.
  unfold ConnectionJs._buildConnection, connect_call, after. run.
  destruct (ConnectionJs.availableConfiguration E config) as [a|e]; [|reflexivity].
  destruct (ConnectionJs.connectionString a) as [[s a']|e]; reflexivity.
Qed.

(** A registration under an identity that is neither registered nor a
    name every object inherits, as a function of the connect call and of the
    driver's reply to it. *)
Lemma registerConnection_fresh (E : Env) (connection : jsobj)
    (colls : gmap string CollectionDef) (w : world) :
  truthy (get connection "identity") = true ->
  connections w !! toString (get connection "identity") = None ->
  inherited (toString (get connection "identity")) = false ->
  let identity := toString (get connection "identity") in
  let merged := defaults connection [Some Adapter.adapter_defaults] in
  let pending := <[ identity := pending_entry connection ]> (connections w) in
  Adapter.registerConnection E connection colls w
  = match connect_call E merged with
    | Throw e => (Throw e, {| connections := pending; log := log w |})
    | Ret (s, o) =>
        match connect_reply E (log w) s o with
        | (Some _err, _) =>
            (Ret (Cb (Some (Adapter._createError E _err)) JUndefined),
             {| connections := pending; log := log w ++ [MongoClient_connect s o] |})
        | (None, None) =>
            (Ret (Cb (Some (Adapter._createError E NoDbObject)) JUndefined),
             {| connections := pending; log := log w ++ [MongoClient_connect s o] |})
        | (None, Some client) =>
            let db := {| config := merged; client_of := client |} in
            (Ret (Cb None JUndefined),
             {| connections :=
                  <[ identity := {| entry_config := merged;
                                    collections := (fun def => Collection_new def db) <$> colls;
                                    connection := Some db |} ]> (connections w);
                log := log w ++ [MongoClient_connect s o] |})
        end
    end.
Proof.
  intros Hid Hfresh Hown identity merged pending. subst identity merged pending.
  unfold Adapter.registerConnection, falsy. rewrite Hid. cbn [negb]. run.
  rewrite (js_lookup_absent _ _ Hfresh Hown).
  unfold ConnectionJs.Connection_new. run.
  rewrite buildConnection_connect_call. unfold after. cbn [connections log].
  destruct (connect_call E _) as [[s o]|e]; [|reflexivity].
  destruct (connect_reply E (log w) s o) as [[err|] [client|]]; cbn; try reflexivity.
  rewrite lookup_insert_eq. cbn. rewrite insert_insert_eq.
  unfold pending_entry. cbn. now rewrite (right_id_L ∅ (∪)).
Qed.

Lemma registerConnection_inherited (E : Env) (connection : jsobj)
    (colls : gmap string CollectionDef) (w : world) :
  truthy (get connection "identity") = true ->
  inherited (toString (get connection "identity")) = true ->
  Adapter.registerConnection E connection colls w
    = (Ret (Cb (Some IdentityDuplicate) JUndefined), w).
Proof.
  intros Hid Hin. unfold Adapter.registerConnection, falsy. rewrite Hid. cbn [negb]. run.
  unfold js_lookup. rewrite Hin. destruct (connections w !! _); reflexivity.
Qed.

Lemma connect_call_database_required (E : Env) (config : jsobj) :
  truthy (get config "url") = false ->
  truthy (get config "user") = true ->
  truthy (get config "password") = true ->
  truthy (get config "database") = false ->
  connect_call E config = Throw database_required.
Proof.
  intros Hurl Huser Hpw Hdb.
  pose proof (buildConnection_database_required E config Sample.empty_world Hurl Huser Hpw Hdb)
    as H.
  rewrite buildConnection_connect_call in H.
  destruct (connect_call E config) as [[s o]|e]; [discriminate | congruence].
Qed.

(** C7, as the code has it: a registration under a fresh identity (one
    that is not a name every object inherits), without a URL, with user and
    password set and the database explicitly set to an empty value, throws
    the configuration error synchronously: no call reaches the driver and
    the callback is not invoked. *)
Theorem registerConnection_database_required (E : Env) (connection : jsobj)
    (colls : gmap string CollectionDef) (w : world) :
  truthy (get connection "identity") = true ->
  connections w !! toString (get connection "identity") = None ->
  inherited (toString (get connection "identity")) = false ->
  truthy (get connection "url") = false ->
  truthy (get connection "user") = true ->
  truthy (get connection "password") = true ->
  get connection "database" <> JUndefined ->
  truthy (get connection "database") = false ->
  exists w',
    Adapter.registerConnection E connection colls w = (Throw database_required, w') /\
    log w' = log w.
Proof.
  intros Hid Hfresh Hown Hurl Huser Hpw Hdef Hdb.
  rewrite (registerConnection_fresh E connection colls w Hid Hfresh Hown).
  rewrite connect_call_database_required.
  - eexists; split; reflexivity.
  - rewrite get_merged_defaults.
    destruct (get connection "url"); try discriminate; try reflexivity; exact Hurl.
  - rewrite get_merged_defaults, first_defined_truthy; assumption.
  - rewrite get_merged_defaults, first_defined_truthy; assumption.
  - rewrite get_merged_defaults, first_defined_defined; assumption.
Qed.

Lemma registerConnection_database_required_witness :
  exists w',
    Adapter.registerConnection Sample.up credentials_without_database ∅ Sample.empty_world
      = (Throw database_required, w') /\
    log w' = log Sample.empty_world.
Proof.
  apply (registerConnection_database_required Sample.up credentials_without_database ∅
           Sample.empty_world);
    first [discriminate | vm_compute; reflexivity].
Defined.

(** Under an identity that every object inherits, the same registration is
    refused as a duplicate before anything is checked. *)
Example registerConnection_inherited_identity :
  Adapter.registerConnection Sample.up
    (<[ "identity" := JStr "constructor" ]> credentials_without_database) ∅ Sample.empty_world
  = (Ret (Cb (Some IdentityDuplicate) JUndefined), Sample.empty_world).
Proof. vm_compute. reflexivity. Qed.

(** C7, counterexample to the claim as stated: user and password are set
    and no database is given; the default database is filled in, the connect
    call is issued and the registration completes through the callback. *)
Lemma registerConnection_without_database_connects :
  let connection : jsobj :=
    <[ "identity" := JStr "db" ]> (<[ "user" := JStr "u" ]> (<[ "password" := JStr "p" ]> ∅)) in
  connection !! "database" = None /\
  exists w' options,
    Adapter.registerConnection Sample.up connection ∅ Sample.empty_world
      = (Ret (Cb None JUndefined), w') /\
    log w' = [MongoClient_connect (JStr "mongodb://u:p@localhost:27017/sails") options].
Proof.
  cbv zeta. split; [reflexivity|].
  eexists _, _. split; [vm_compute; reflexivity | reflexivity].
Qed.



(** At that input the connection is opened: the entry holds the client the
    driver answered with and the declared collection. *)
Example registerConnection_opened :
  let r := Adapter.registerConnection Sample.up small_config {[ "users" := Sample.users_def ]}
             Sample.empty_world in
  r.1 = Ret (Cb None JUndefined) /\
  exists entry db,
    connections r.2 !! "db" = Some entry /\
    Mongo.connection entry = Some db /\ client_of db = 7%nat /\
    schema <$> collections entry !! "users" = Some (def_schema Sample.users_def).
Proof.
  cbv zeta. split; [vm_compute; reflexivity|].
  eexists _, _. split; [vm_compute; reflexivity|]. repeat split.
Qed.


(** With a URL in the configuration the connection string is not built from
    the discrete fields, and the same credentials without a database connect. *)
Example registerConnection_with_url_connects :
  exists w' options,
    Adapter.registerConnection Sample.up credentials_with_url ∅ Sample.empty_world
      = (Ret (Cb None JUndefined), w') /\
    log w' = [MongoClient_connect (JStr "mongodb://u:p@h:27017") options].
Proof. eexists _, _. split; [vm_compute; reflexivity | reflexivity]. Qed.

(** ** [teardown] *)

Lemma Connection_get_db (c : option Connection) : Connection_get c "db" = PUndefined.
Proof. destruct c; reflexivity. Qed.

Lemma async_each_noop {A} (iteratee : A -> M (option error)) (items : list A) :
  Forall (fun item => forall w, iteratee item w = (Ret None, w)) items ->
  forall w, async_each items iteratee w = (Ret None, w).
Proof.
  induction 1 as [|item items Hitem _ IH]; intros w; [reflexivity|].
  cbn [async_each]. unfold mbind, M_bind. rewrite Hitem, IH. reflexivity.
Qed.

(** Whatever the registry holds, [teardown] without an identity empties it
    and calls back without error, and issues no call to the driver. *)
Lemma teardown_all (E : Env) (w : world) :
  Adapter.teardown E None w = (Ret (Cb None JUndefined), {| connections := ∅; log := log w |}).
Proof.
  unfold Adapter.teardown. run.
  rewrite !length_map.
  case_bool_decide as Hlen.
  - apply length_zero_iff_nil, map_to_list_empty_iff in Hlen.
    destruct w as [cs l]; cbn in *. now subst.
  - rewrite async_each_noop; [reflexivity|].
    apply Forall_forall. intros db Hdb w'.
    apply list_elem_of_In, in_map_iff in Hdb as (c' & <- & _).
    now rewrite Connection_get_db.
Qed.

(** C4, at a registry with one live connection: [teardown] without an
    identity calls back without error and empties the registry, but the
    handle is never closed; the path with an identity does close it. *)
Theorem teardown_all_leaves_handle_open :
  Adapter.teardown Sample.up None (Sample.one_connection Sample.writable_config)
    = (Ret (Cb None JUndefined), {| connections := ∅; log := [] |})
  /\ Adapter.teardown Sample.up (Some (JStr "db")) (Sample.one_connection Sample.writable_config)
    = (Ret (Cb None JUndefined), {| connections := ∅; log := [Client_close 7%nat] |}).
Proof.
  split.
  - apply teardown_all.
  - vm_compute. reflexivity.
Qed.

(** [teardown] without an identity on an empty registry, twice in a row. *)
Example teardown_twice (E : Env) :
  let r1 := Adapter.teardown E None Sample.empty_world in
  r1 = (Ret (Cb None JUndefined), Sample.empty_world)
  /\ Adapter.teardown E None r1.2 = (Ret (Cb None JUndefined), Sample.empty_world).
Proof. cbv zeta. rewrite !teardown_all. split; reflexivity. Qed.

(** ** The read-only policy *)

Section ReadOnly.
Variable E : Env.
Variables (w : world) (connectionName collectionName : string).
Variables (connectionObject : ConnectionEntry) (c : Connection).
Hypothesis Hconn : connections w !! connectionName = Some connectionObject.
Hypothesis Hlive : connection connectionObject = Some c.
Hypothesis HreadOnly : truthy (get (config c) "readOnly") = true.

Ltac read_only :=
  unfold Adapter.lookup_connectionObject, Adapter.live_connection; run;
  rewrite Hconn, Hlive, HreadOnly; reflexivity.

Lemma create_read_only data :
  Adapter.create E connectionName collectionName data w = (Ret (Cb None JUndefined), w).
Proof. unfold Adapter.create. read_only. Qed.

Lemma update_read_only options values :
  Adapter.update E connectionName collectionName options values w = (Ret (Cb None JUndefined), w).
Proof. unfold Adapter.update. read_only. Qed.

Lemma destroy_read_only options :
  Adapter.destroy E connectionName collectionName options w = (Ret (Cb None JUndefined), w).
Proof. unfold Adapter.destroy. read_only. Qed.

Lemma define_read_only definition :
  Adapter.define E connectionName collectionName definition w = (Ret (Cb None JUndefined), w).
Proof. unfold Adapter.define. read_only. Qed.

Lemma drop_read_only relations :
  Adapter.drop E connectionName collectionName relations w = (Ret (Cb None JUndefined), w).
Proof. unfold Adapter.drop. read_only. Qed.

(** [createEach] does not consult the flag: a non-empty batch is handed to
    the collection's [insert]. *)
Lemma createEach_read_only_inserts collection d ds :
  collections connectionObject !! collectionName = Some collection ->
  exists r,
    Adapter.createEach E connectionName collectionName (JArr (d :: ds)) w
    = (Ret r, {| connections := connections w;
                 log := log w ++ [Collection_insert collection (JArr (d :: ds))] |}).
Proof.
  intros Hcoll. unfold Adapter.createEach, Adapter.lookup_connectionObject, Adapter.the_collection.
  run. simpl. rewrite Hconn. simpl. rewrite Hcoll. simpl.
  destruct (insert_reply E (log w) collection (JArr (d :: ds))) as [[err|] results];
    eexists; reflexivity.
Qed.

End ReadOnly.

(** C1, at a read-only connection: [create] is a silent no-op, while
    [createEach] with a one-document batch asks the collection to insert it
    and calls back with what the store answers. *)
Theorem createEach_ignores_readOnly :
  let w := Sample.one_connection Sample.read_only_config in
  let users := Collection_new Sample.users_def (Sample.live Sample.read_only_config) in
  Adapter.create Sample.up "db" "users" a_document w = (Ret (Cb None JUndefined), w)
  /\ Adapter.createEach Sample.up "db" "users" (JArr [a_document]) w
     = (Ret (Cb None (JArr [a_document])),
        {| connections := connections w;
           log := [Collection_insert users (JArr [a_document])] |})
  /\ is_mutation (Collection_insert users (JArr [a_document])) = true.
Proof.
  cbv zeta. split; [|split].
  - eapply create_read_only; reflexivity.
  - reflexivity.
  - reflexivity.
Qed.

(** ** [describe] and [drop] *)

(** [describe] on a registered collection of a live connection, by what
    [listCollections] returns: the schema is called back for a non-empty
    array only. *)
Lemma describe_by_listing (E : Env) (w : world) (connectionName collectionName : string)
    (connectionObject : ConnectionEntry) (collection : Collection) (c : Connection) :
  connections w !! connectionName = Some connectionObject ->
  collections connectionObject !! collectionName = Some collection ->
  connection connectionObject = Some c ->
  Adapter.describe E connectionName collectionName w
  = (match listCollections_reply E (log w) (client_of c) collectionName with
     | Cursor _ => Ret (Cb None JUndefined)
     | Names [] => Ret (Cb None JUndefined)
     | Names (_ :: _) => Ret (Cb None (schema collection))
     | Nullish => Throw (JsTypeError "Cannot read property 'length' of undefined")
     end,
     after w [Db_listCollections (client_of c) collectionName]).
Proof.
  intros Hconn Hcoll Hlive.
  unfold Adapter.describe, Adapter.lookup_connectionObject, after. run.
  rewrite Hconn. cbn. rewrite (js_lookup_own _ _ _ Hcoll), Hlive. cbn.
  destruct (listCollections_reply E (log w) (client_of c) collectionName) as [l|[|n l]|];
    reflexivity.
Qed.

(** C5, at a registered collection that the store has: the driver returns
    its cursor over the collection, [describe] reads the cursor's [length],
    finds none and calls back without the schema, as it does when the store
    has no such collection; the schema is called back only for a driver
    that returns an array. *)
Theorem describe_never_sees_the_cursor :
  let w := Sample.one_connection small_config in
  let users := Collection_new Sample.users_def (Sample.live small_config) in
  listCollections_reply Sample.up (log w) 7%nat "users" = Cursor ["users"] /\
  Adapter.describe Sample.up "db" "users" w
    = (Ret (Cb None JUndefined), after w [Db_listCollections 7%nat "users"]) /\
  Adapter.describe (Sample.with_listing Sample.up (Cursor [])) "db" "users" w
    = (Ret (Cb None JUndefined), after w [Db_listCollections 7%nat "users"]) /\
  Adapter.describe (Sample.with_listing Sample.up (Names ["users"])) "db" "users" w
    = (Ret (Cb None (schema users)), after w [Db_listCollections 7%nat "users"]).
Proof.
  cbv zeta. split; [reflexivity|].
  repeat split; vm_compute; reflexivity.
Qed.

(** Whatever the cursor ranges over, [describe] calls back without result. *)
Lemma describe_cursor (E : Env) (w : world) (connectionName collectionName : string)
    (connectionObject : ConnectionEntry) (collection : Collection) (c : Connection)
    (names : list string) :
  connections w !! connectionName = Some connectionObject ->
  collections connectionObject !! collectionName = Some collection ->
  connection connectionObject = Some c ->
  listCollections_reply E (log w) (client_of c) collectionName = Cursor names ->
  Adapter.describe E connectionName collectionName w
  = (Ret (Cb None JUndefined), after w [Db_listCollections (client_of c) collectionName]).
Proof.
  intros Hconn Hcoll Hlive Hreply.
  rewrite (describe_by_listing E w _ _ _ _ _ Hconn Hcoll Hlive). now rewrite Hreply.
Qed.

(** C8: on a connection that is not read-only, [drop] asks the store to
    drop the collection and calls back without error when the store reports
    no error or the error ["ns not found"], and with the store's error
    itself otherwise. *)
Theorem drop_tolerates_ns_not_found (E : Env) (w : world) (connectionName collectionName : string)
    (relations : jsval) (connectionObject : ConnectionEntry) (c : Connection) :
  connections w !! connectionName = Some connectionObject ->
  connection connectionObject = Some c ->
  truthy (get (config c) "readOnly") = false ->
  let reply := dropCollection_reply E (log w) (client_of c) collectionName in
  exists err,
    Adapter.drop E connectionName collectionName relations w
      = (Ret (Cb err JUndefined),
         {| connections := connections w;
            log := log w ++ [Db_dropCollection (client_of c) collectionName] |})
    /\ (reply = None -> err = None)
    /\ (forall e, reply = Some e -> errmsg e = JStr "ns not found" -> err = None)
    /\ (forall e, reply = Some e -> errmsg e <> JStr "ns not found" -> err = Some e).
Proof.
  intros Hconn Hlive Hrw reply.
  unfold Adapter.drop, Adapter.lookup_connectionObject, Adapter.live_connection,
    ConnectionJs.dropCollection. run.
  rewrite Hconn, Hlive, Hrw. fold reply.
  destruct reply as [e|].
  - destruct (strict_eq_str (errmsg e) "ns not found") eqn:Hmsg.
    + eexists; split; [reflexivity|]. repeat split; auto.
      intros e' [= <-] Hne. exfalso. apply Hne.
      unfold strict_eq_str in Hmsg. destruct (errmsg e); try discriminate.
      apply String.eqb_eq in Hmsg. now subst.
    + eexists; split; [reflexivity|]. repeat split; try discriminate.
      * intros e' [= <-] Heq. rewrite Heq in Hmsg. discriminate.
      * intros e' [= <-] _. reflexivity.
  - eexists; split; [reflexivity|]. repeat split; auto; discriminate.
Qed.

Lemma drop_tolerates_ns_not_found_witness :
  let E := Sample.env (None, Some 7%nat) (Some ns_not_found) [] in
  let w := Sample.one_connection Sample.writable_config in
  let c := Sample.live Sample.writable_config in
  let reply := dropCollection_reply E (log w) (client_of c) "ghosts" in
  exists err,
    Adapter.drop E "db" "ghosts" (JArr []) w
      = (Ret (Cb err JUndefined),
         {| connections := connections w;
            log := log w ++ [Db_dropCollection (client_of c) "ghosts"] |})
    /\ (reply = None -> err = None)
    /\ (forall e, reply = Some e -> errmsg e = JStr "ns not found" -> err = None)
    /\ (forall e, reply = Some e -> errmsg e <> JStr "ns not found" -> err = Some e).
Proof.
  intros E w c.
  apply (drop_tolerates_ns_not_found E w "db" "ghosts" (JArr [])
           {| entry_config := Sample.writable_config;
              collections := {[ "users" := Collection_new Sample.users_def c ]};
              connection := Some c |} c).
  - reflexivity.
  - reflexivity.
  - reflexivity.
Defined.

Example drop_absent_collection :
  (Adapter.drop (Sample.env (None, Some 7%nat) (Some ns_not_found) []) "db" "ghosts" (JArr [])
     (Sample.one_connection Sample.writable_config)).1 = Ret (Cb None JUndefined).
Proof. reflexivity. Qed.

(** ** The join engine's [$getPK] *)

(** C9, as the code has it: for an empty (falsy) collection identity
    [$getPK] returns [undefined].  For a non-empty one it returns the
    primary-key field name of the collection registered under that identity
    in the registered connection; when the connection, or the collection
    under it, is not registered it throws, rather than returning a default:
    the consistency-violation [Error], or a [TypeError] when the unregistered
    name is one that every object inherits.  The registry is left as it
    was. *)
Theorem getPK_registered_or_throws (w : world) (connectionName : string)
    (collectionIdentity : jsval) :
  let r := Adapter.getPK connectionName collectionIdentity w in
  r.2 = w /\
  if truthy collectionIdentity then
    match connections w !! connectionName with
    | Some connectionObject =>
        match collections connectionObject !! toString collectionIdentity with
        | Some collection => r.1 = Ret (JStr (_getPK collection))
        | None =>
            if inherited (toString collectionIdentity)
            then exists msg, r.1 = Throw (JsTypeError msg)
            else exists msg, r.1 = Throw (JsError msg)
        end
    | None =>
        if inherited connectionName
        then exists msg, r.1 = Throw (JsTypeError msg)
        else exists msg, r.1 = Throw (JsError msg)
    end
  else r.1 = Ret JUndefined.
Proof.
  intros r. subst r. unfold Adapter.getPK, falsy, js_lookup.
  destruct (truthy collectionIdentity); cbn [negb]; [|split; reflexivity]. run.
  destruct (connections w !! connectionName) as [connectionObject|].
  - destruct (collections connectionObject !! toString collectionIdentity) as [collection|].
    + split; reflexivity.
    + destruct (inherited (toString collectionIdentity)); split; eauto.
  - destruct (inherited connectionName); split; eauto.
Qed.

Example getPK_users :
  (Adapter.getPK "db" (JStr "users") (Sample.one_connection Sample.writable_config)).1
  = Ret (JStr "id").
Proof. reflexivity. Qed.

Example getPK_inherited_names :
  is_TypeError (Adapter.getPK "db" (JStr "constructor")
                  (Sample.one_connection small_config)).1 = true /\
  is_TypeError (Adapter.getPK "toString" (JStr "users")
                  (Sample.one_connection small_config)).1 = true /\
  (exists msg, (Adapter.getPK "db" (JStr "ghosts") (Sample.one_connection small_config)).1
               = Throw (JsError msg)).
Proof. split; [|split]; [reflexivity | reflexivity | eexists; reflexivity]. Qed.

(** C9, counterexample to the claim as stated: the empty collection
    identity is registered nowhere, with or without a registered connection,
    and [$getPK] returns [undefined] instead of failing. *)
Lemma getPK_empty_identity_returns_undefined :
  connections Sample.empty_world !! "db" = None /\
  Adapter.getPK "db" (JStr "") Sample.empty_world = (Ret JUndefined, Sample.empty_world) /\
  (forall connectionObject,
     connections (Sample.one_connection Sample.writable_config) !! "db" = Some connectionObject ->
     collections connectionObject !! "" = None) /\
  Adapter.getPK "db" (JStr "") (Sample.one_connection Sample.writable_config)
    = (Ret JUndefined, Sample.one_connection Sample.writable_config).
Proof.
  split; [reflexivity|]. split; [reflexivity|]. split; [|reflexivity].
  intros co H. vm_compute in H. injection H as <-. reflexivity.
Qed.

(** * Further properties of the registry *)

(** A registration without an identity is refused with [IdentityMissing];
    nothing is stored and the driver is not called. *)
Theorem registerConnection_identity_missing (E : Env) (connection : jsobj)
    (colls : gmap string CollectionDef) (w : world) :
  truthy (get connection "identity") = false ->
  Adapter.registerConnection E connection colls w
    = (Ret (Cb (Some IdentityMissing) JUndefined), w).
Proof.
  intros Hid. unfold Adapter.registerConnection, falsy. now rewrite Hid.
Qed.

Lemma registerConnection_identity_missing_witness :
  Adapter.registerConnection Sample.up
    (<[ "host" := JStr "localhost" ]> ∅) ∅ (Sample.one_connection Sample.writable_config)
    = (Ret (Cb (Some IdentityMissing) JUndefined), Sample.one_connection Sample.writable_config).
Proof.
  apply (registerConnection_identity_missing Sample.up (<[ "host" := JStr "localhost" ]> ∅) ∅
           (Sample.one_connection Sample.writable_config)).
  reflexivity.
Defined.

Lemma registerConnection_duplicate (E : Env) (connection : jsobj)
    (colls : gmap string CollectionDef) (w : world) :
  truthy (get connection "identity") = true ->
  is_Some (connections w !! toString (get connection "identity"))
  \/ inherited (toString (get connection "identity")) = true ->
  Adapter.registerConnection E connection colls w
    = (Ret (Cb (Some IdentityDuplicate) JUndefined), w).
Proof.
  intros Hid Hreg. unfold Adapter.registerConnection, falsy. rewrite Hid. cbn [negb]. run.
  unfold js_lookup. destruct Hreg as [[entry ->]| ->]; [reflexivity|].
  destruct (connections w !! _); reflexivity.
Qed.

(** Whatever becomes of a registration under a fresh identity, the identity
    is taken afterwards (or was never free: an inherited name). *)
Lemma registerConnection_takes_identity (E : Env) (connection : jsobj)
    (colls : gmap string CollectionDef) (w : world) :
  truthy (get connection "identity") = true ->
  connections w !! toString (get connection "identity") = None ->
  is_Some (connections (Adapter.registerConnection E connection colls w).2
             !! toString (get connection "identity"))
  \/ inherited (toString (get connection "identity")) = true.
Proof.
  intros Hid Hfresh.
  destruct (inherited (toString (get connection "identity"))) eqn:Hown; [now right | left].
  rewrite (registerConnection_fresh E connection colls w Hid Hfresh Hown).
  destruct (connect_call E _) as [[s o]|e]; cbn; [|rewrite lookup_insert_eq; eauto].
  destruct (connect_reply E (log w) s o) as [[err|] [client|]]; cbn;
    rewrite lookup_insert_eq; eauto.
Qed.

(** Once a registration has been attempted under an identity, whether the
    connection was opened, failed to open or the attempt threw, every later
    registration under that identity is refused with [IdentityDuplicate] and
    changes nothing. *)
Theorem registerConnection_twice (E E' : Env) (connection connection' : jsobj)
    (colls colls' : gmap string CollectionDef) (w : world) :
  truthy (get connection "identity") = true ->
  connections w !! toString (get connection "identity") = None ->
  truthy (get connection' "identity") = true ->
  toString (get connection' "identity") = toString (get connection "identity") ->
  let w1 := (Adapter.registerConnection E connection colls w).2 in
  Adapter.registerConnection E' connection' colls' w1
    = (Ret (Cb (Some IdentityDuplicate) JUndefined), w1).
Proof.
  intros Hid Hfresh Hid' Hsame w1.
  apply registerConnection_duplicate; [assumption|].
  rewrite Hsame. now apply registerConnection_takes_identity.
Qed.

Lemma registerConnection_twice_witness :
  let w1 := (Adapter.registerConnection Sample.down {[ "identity" := JStr "db" ]} ∅
               Sample.empty_world).2 in
  Adapter.registerConnection Sample.up Sample.writable_config ∅ w1
    = (Ret (Cb (Some IdentityDuplicate) JUndefined), w1).
Proof.
  apply (registerConnection_twice Sample.down Sample.up {[ "identity" := JStr "db" ]}
           Sample.writable_config ∅ ∅ Sample.empty_world); vm_compute; reflexivity.
Defined.

(** ** [teardown] with an identity *)

Lemma truthy_not_null (v : jsval) : truthy v = true -> v <> JNull.
Proof. intros H ->. discriminate. Qed.

Lemma teardown_named_live (E : Env) (w : world) (conn : jsval)
    (connectionObject : ConnectionEntry) (c : Connection) :
  conn <> JNull ->
  connections w !! toString conn = Some connectionObject ->
  connection connectionObject = Some c ->
  Adapter.teardown E (Some conn) w
    = (Ret (Cb None JUndefined),
       {| connections := delete (toString conn) (connections w);
          log := log w ++ [Client_close (client_of c)] |}).
Proof.
  intros Hnn Hconn Hlive. unfold Adapter.teardown. run.
  destruct conn; try contradiction; rewrite (js_lookup_own _ _ _ Hconn), Hlive; reflexivity.
Qed.

Lemma teardown_named_pending (E : Env) (w : world) (conn : jsval)
    (connectionObject : ConnectionEntry) :
  conn <> JNull ->
  connections w !! toString conn = Some connectionObject ->
  connection connectionObject = None ->
  Adapter.teardown E (Some conn) w
    = (Throw (JsTypeError "Cannot read property 'client' of undefined"), w).
Proof.
  intros Hnn Hconn Hlive. unfold Adapter.teardown. run.
  destruct conn; try contradiction; rewrite (js_lookup_own _ _ _ Hconn), Hlive; reflexivity.
Qed.

Lemma teardown_named_inherited (E : Env) (w : world) (conn : jsval) :
  conn <> JNull ->
  connections w !! toString conn = None ->
  inherited (toString conn) = true ->
  Adapter.teardown E (Some conn) w
    = (Throw (JsTypeError "Cannot read property 'client' of undefined"), w).
Proof.
  intros Hnn Hnone Hin. unfold Adapter.teardown. run.
  destruct conn; try contradiction; rewrite (js_lookup_inherited _ _ Hnone Hin); reflexivity.
Qed.

(** [teardown] with the identity of a live connection closes that
    connection's client, removes exactly that entry and calls back without
    error, whatever the driver answers to the close. *)
Theorem teardown_identity (E : Env) (w : world) (name : string)
    (connectionObject : ConnectionEntry) (c : Connection) :
  connections w !! name = Some connectionObject ->
  connection connectionObject = Some c ->
  let r := Adapter.teardown E (Some (JStr name)) w in
  r = (Ret (Cb None JUndefined),
       {| connections := delete name (connections w);
          log := log w ++ [Client_close (client_of c)] |})
  /\ connections r.2 !! name = None
  /\ forall other, other <> name -> connections r.2 !! other = connections w !! other.
Proof.
  intros Hconn Hlive r. subst r.
  rewrite (teardown_named_live E w (JStr name) connectionObject c) by (assumption || discriminate).
  cbn [toString snd connections].
  split; [reflexivity|]. split.
  - apply lookup_delete_eq.
  - intros other Hne. now apply lookup_delete_ne.
Qed.

Lemma teardown_identity_witness :
  let w := Sample.one_connection small_config in
  let r := Adapter.teardown Sample.up (Some (JStr "db")) w in
  r = (Ret (Cb None JUndefined),
       {| connections := delete "db" (connections w);
          log := log w ++ [Client_close (client_of (Sample.live small_config))] |})
  /\ connections r.2 !! "db" = None
  /\ forall other, other <> "db" -> connections r.2 !! other = connections w !! other.
Proof.
  intros w.
  apply (teardown_identity Sample.up w "db"
           {| entry_config := small_config;
              collections := {[ "users" := Collection_new Sample.users_def
                                             (Sample.live small_config) ]};
              connection := Some (Sample.live small_config) |}
           (Sample.live small_config)).
  - vm_compute. reflexivity.
  - reflexivity.
Defined.

Lemma teardown_unknown (E : Env) (w : world) (conn : jsval) :
  conn <> JNull ->
  connections w !! toString conn = None ->
  inherited (toString conn) = false ->
  Adapter.teardown E (Some conn) w = (Ret (Cb None JUndefined), w).
Proof.
  intros Hnn Hnone Hown. unfold Adapter.teardown. run.
  destruct conn; try contradiction; rewrite (js_lookup_absent _ _ Hnone Hown); reflexivity.
Qed.

(** [teardown] with an identity is idempotent: after it has removed a live
    connection registered under a name that is not one every object
    inherits (no other name can be registered), the same call succeeds again
    and changes nothing (no second close is issued). *)
Theorem teardown_identity_twice (E E' : Env) (w : world) (name : string)
    (connectionObject : ConnectionEntry) (c : Connection) :
  connections w !! name = Some connectionObject ->
  connection connectionObject = Some c ->
  inherited name = false ->
  let w1 := (Adapter.teardown E (Some (JStr name)) w).2 in
  Adapter.teardown E' (Some (JStr name)) w1 = (Ret (Cb None JUndefined), w1).
Proof.
  intros Hconn Hlive Hown w1.
  apply teardown_unknown; [discriminate| |assumption].
  subst w1. cbn [toString].
  rewrite (teardown_named_live E w (JStr name) connectionObject c) by (assumption || discriminate).
  apply lookup_delete_eq.
Qed.

Lemma teardown_identity_twice_witness :
  let w1 := (Adapter.teardown Sample.up (Some (JStr "db"))
               (Sample.one_connection small_config)).2 in
  Adapter.teardown Sample.up (Some (JStr "db")) w1 = (Ret (Cb None JUndefined), w1).
Proof.
  apply (teardown_identity_twice Sample.up Sample.up
           (Sample.one_connection small_config) "db"
           {| entry_config := small_config;
              collections := {[ "users" := Collection_new Sample.users_def
                                             (Sample.live small_config) ]};
              connection := Some (Sample.live small_config) |}
           (Sample.live small_config)).
  - vm_compute. reflexivity.
  - reflexivity.
  - reflexivity.
Defined.

(** A registry cannot come to hold an own entry under an inherited name;
    if it did, the second [teardown] would find the inherited function and
    throw. *)
Example teardown_twice_inherited_name :
  let w := {| connections := {[ "constructor" := {| entry_config := small_config;
                                                    collections := ∅;
                                                    connection := Some (Sample.live small_config) |} ]};
              log := [] |} in
  let w1 := (Adapter.teardown Sample.up (Some (JStr "constructor")) w).2 in
  is_TypeError (Adapter.teardown Sample.up (Some (JStr "constructor")) w1).1 = true.
Proof. vm_compute. reflexivity. Qed.

(** What a registration under a fresh identity leaves behind, by the way
    its callback was invoked. *)
Lemma registerConnection_outcome (E : Env) (connection : jsobj)
    (colls : gmap string CollectionDef) (w : world) :
  truthy (get connection "identity") = true ->
  connections w !! toString (get connection "identity") = None ->
  inherited (toString (get connection "identity")) = false ->
  let identity := toString (get connection "identity") in
  let r := Adapter.registerConnection E connection colls w in
  match r.1 with
  | Ret (Cb None _) =>
      exists entry db c,
        Mongo.connection entry = Some db /\
        r.2 = {| connections := <[ identity := entry ]> (connections w);
                 log := log w ++ [c] |} /\
        is_connect c = true
  | Ret (Cb (Some _) _) =>
      exists c,
        r.2 = {| connections := <[ identity := pending_entry connection ]> (connections w);
                 log := log w ++ [c] |}
  | Throw _ =>
      r.2 = {| connections := <[ identity := pending_entry connection ]> (connections w);
               log := log w |}
  end.
Proof.
  intros Hid Hfresh Hown identity r. subst r identity.
  rewrite (registerConnection_fresh E connection colls w Hid Hfresh Hown).
  destruct (connect_call E _) as [[s o]|e]; [|reflexivity].
  destruct (connect_reply E (log w) s o) as [[err|] [client|]]; cbn; eauto.
  eexists {| entry_config := _; collections := _; connection := Some _ |}, _, _.
  split; [reflexivity|]. split; reflexivity.
Qed.

(** Round trip: a registration under a fresh identity that opens its
    connection, followed by [teardown] of that identity, gives back the
    registry as it was; the driver has seen the connect and the close. *)
Theorem register_then_teardown (E E' : Env) (connection : jsobj)
    (colls : gmap string CollectionDef) (w : world) :
  truthy (get connection "identity") = true ->
  connections w !! toString (get connection "identity") = None ->
  let r := Adapter.registerConnection E connection colls w in
  (exists result, r.1 = Ret (Cb None result)) ->
  exists c h,
    Adapter.teardown E' (Some (get connection "identity")) r.2
      = (Ret (Cb None JUndefined),
         {| connections := connections w;
            log := log w ++ [c; Client_close h] |})
    /\ is_connect c = true.
Proof.
  intros Hid Hfresh r [result Hr].
  destruct (inherited (toString (get connection "identity"))) eqn:Hown.
  { subst r. rewrite registerConnection_inherited in Hr by assumption. discriminate. }
  pose proof (registerConnection_outcome E connection colls w Hid Hfresh Hown) as H.
  cbv zeta in H. fold r in H. rewrite Hr in H.
  destruct H as (entry & db & c & Hdb & Hw & Hc).
  exists c, (client_of db). split; [|exact Hc].
  rewrite Hw.
  rewrite (teardown_named_live E' _ _ entry db); cbn [connections log].
  - rewrite delete_insert_id by assumption. now rewrite <- app_assoc.
  - now apply truthy_not_null.
  - apply lookup_insert_eq.
  - assumption.
Qed.

Lemma register_then_teardown_witness :
  let r := Adapter.registerConnection Sample.up Sample.writable_config ∅ Sample.empty_world in
  exists c h,
    Adapter.teardown Sample.up (Some (get Sample.writable_config "identity")) r.2
      = (Ret (Cb None JUndefined),
         {| connections := connections Sample.empty_world;
            log := log Sample.empty_world ++ [c; Client_close h] |})
    /\ is_connect c = true.
Proof.
  apply (register_then_teardown Sample.up Sample.up Sample.writable_config ∅ Sample.empty_world).
  - vm_compute. reflexivity.
  - vm_compute. reflexivity.
  - eexists. vm_compute. reflexivity.
Defined.

(** A registration whose connection fails to open leaves an entry that
    [teardown] with that identity cannot remove: the call throws a
    [TypeError] and changes nothing; only [teardown] without an identity
    clears it. *)
Theorem failed_open_then_teardown (E E' : Env) (connection : jsobj)
    (colls : gmap string CollectionDef) (w : world) :
  truthy (get connection "identity") = true ->
  connections w !! toString (get connection "identity") = None ->
  let r := Adapter.registerConnection E connection colls w in
  (exists err result, r.1 = Ret (Cb (Some err) result)) ->
  (exists msg,
     Adapter.teardown E' (Some (get connection "identity")) r.2
       = (Throw (JsTypeError msg), r.2))
  /\ Adapter.teardown E' None r.2
       = (Ret (Cb None JUndefined), {| connections := ∅; log := log r.2 |}).
Proof.
  intros Hid Hfresh r (err & result & Hr).
  split; [|apply teardown_all].
  destruct (inherited (toString (get connection "identity"))) eqn:Hown.
  { subst r. rewrite registerConnection_inherited by assumption. eexists.
    apply teardown_named_inherited; [now apply truthy_not_null | assumption | assumption]. }
  pose proof (registerConnection_outcome E connection colls w Hid Hfresh Hown) as H.
  cbv zeta in H. fold r in H. rewrite Hr in H.
  destruct H as (c & Hw).
  rewrite Hw. eexists.
  apply (teardown_named_pending E' _ _ (pending_entry connection)).
  - now apply truthy_not_null.
  - apply lookup_insert_eq.
  - reflexivity.
Qed.

Lemma failed_open_then_teardown_witness :
  let r := Adapter.registerConnection Sample.down Sample.writable_config ∅ Sample.empty_world in
  (exists msg,
     Adapter.teardown Sample.up (Some (get Sample.writable_config "identity")) r.2
       = (Throw (JsTypeError msg), r.2))
  /\ Adapter.teardown Sample.up None r.2
       = (Ret (Cb None JUndefined), {| connections := ∅; log := log r.2 |}).
Proof.
  apply (failed_open_then_teardown Sample.down Sample.up Sample.writable_config ∅
           Sample.empty_world).
  - vm_compute. reflexivity.
  - vm_compute. reflexivity.
  - eexists _, _. vm_compute. reflexivity.
Defined.

(** * Further properties of the verbs *)

(** ** The registry is only written by [registerConnection] and [teardown] *)

Lemma keeps_mret {A} (a : A) : keeps_registry (mret a).
Proof. intros w. reflexivity. Qed.

Lemma keeps_throw {A} (e : exn) : keeps_registry (@throw A e).
Proof. intros w. reflexivity. Qed.

Lemma keeps_lift {A} (r : res A) : keeps_registry (lift r).
Proof. intros w. reflexivity. Qed.

Lemma keeps_registry_read : keeps_registry registry.
Proof. intros w. reflexivity. Qed.

Lemma keeps_issue {A} (c : call) (reply : list call -> A) : keeps_registry (issue c reply).
Proof. intros w. reflexivity. Qed.

Lemma keeps_bind {A B} (m : M A) (k : A -> M B) :
  keeps_registry m -> (forall a, keeps_registry (k a)) -> keeps_registry (m ≫= k).
Proof.
  intros Hm Hk w. unfold mbind, M_bind. specialize (Hm w).
  destruct (m w) as [[a|e] w']; cbn in *; [|assumption].
  now rewrite Hk.
Qed.

Lemma keeps_async_each {A} (items : list A) (iteratee : A -> M (option error)) :
  (forall item, keeps_registry (iteratee item)) -> keeps_registry (async_each items iteratee).
Proof.
  intros H. induction items as [|item items IH]; cbn [async_each].
  - apply keeps_mret.
  - apply keeps_bind; [apply H|]. intros err.
    apply keeps_bind; [apply IH|]. intros err'. apply keeps_mret.
Qed.

Ltac keeps :=
  repeat first
    [ apply keeps_mret | apply keeps_throw | apply keeps_lift | apply keeps_registry_read
    | apply keeps_issue
    | apply keeps_async_each; intros ?
    | apply keeps_bind; [|intros ?]
    | match goal with
      | |- keeps_registry (match ?x with _ => _ end) => destruct x
      | |- keeps_registry (if ?b then _ else _) => destruct b
      end ].

(** No verb other than [registerConnection] and [teardown] writes the
    registry: whatever the arguments, the registry and the driver's replies,
    [describe], [define], [drop], [create], [createEach], [find], [update],
    [destroy], [$find] and [$getPK] leave every entry as it was, also when
    they throw. *)
Theorem verbs_keep_registry (E : Env) (connectionName collectionName : string)
    (data options values : jsval) :
  keeps_registry (Adapter.describe E connectionName collectionName) /\
  keeps_registry (Adapter.define E connectionName collectionName data) /\
  keeps_registry (Adapter.drop E connectionName collectionName data) /\
  keeps_registry (Adapter.create E connectionName collectionName data) /\
  keeps_registry (Adapter.createEach E connectionName collectionName data) /\
  keeps_registry (Adapter.find E connectionName collectionName options) /\
  keeps_registry (Adapter.update E connectionName collectionName options values) /\
  keeps_registry (Adapter.destroy E connectionName collectionName options) /\
  keeps_registry (Adapter.find_ E connectionName data options) /\
  keeps_registry (Adapter.getPK connectionName data).
Proof.
  repeat split.
  all: unfold Adapter.describe, Adapter.define, Adapter.drop, Adapter.create,
         Adapter.createEach, Adapter.find, Adapter.update, Adapter.destroy,
         Adapter.find_, Adapter.getPK,
         Adapter.lookup_connectionObject, Adapter.live_connection, Adapter.the_collection,
         ConnectionJs.createCollection, ConnectionJs.dropCollection,
         ConnectionJs._ensureIndexes.
  all: keeps.
Qed.

(** ** Lookups are unchecked *)

(** On a connection name that is not registered, every verb throws a
    [TypeError] before anything is asked of the store ([createEach] does so
    for a non-empty batch). *)
Theorem unregistered_connection_throws (E : Env) (w : world)
    (connectionName collectionName : string) (data options values d : jsval) (ds : list jsval) :
  connections w !! connectionName = None ->
  let thrown (r : res cb_args * world) := is_TypeError r.1 = true /\ r.2 = w in
  thrown (Adapter.describe E connectionName collectionName w) /\
  thrown (Adapter.define E connectionName collectionName data w) /\
  thrown (Adapter.drop E connectionName collectionName data w) /\
  thrown (Adapter.create E connectionName collectionName data w) /\
  thrown (Adapter.createEach E connectionName collectionName (JArr (d :: ds)) w) /\
  thrown (Adapter.find E connectionName collectionName options w) /\
  thrown (Adapter.update E connectionName collectionName options values w) /\
  thrown (Adapter.destroy E connectionName collectionName options w).
Proof.
  intros Hnone thrown. subst thrown. cbv beta.
  unfold Adapter.describe, Adapter.define, Adapter.drop, Adapter.create,
    Adapter.createEach, Adapter.find, Adapter.update, Adapter.destroy,
    Adapter.lookup_connectionObject.
  run. simpl. rewrite Hnone.
  repeat split; reflexivity.
Qed.

Lemma unregistered_connection_throws_witness :
  let w := Sample.one_connection small_config in
  let thrown (r : res cb_args * world) := is_TypeError r.1 = true /\ r.2 = w in
  thrown (Adapter.describe Sample.up "other" "users" w) /\
  thrown (Adapter.define Sample.up "other" "users" a_document w) /\
  thrown (Adapter.drop Sample.up "other" "users" a_document w) /\
  thrown (Adapter.create Sample.up "other" "users" a_document w) /\
  thrown (Adapter.createEach Sample.up "other" "users" (JArr (a_document :: [])) w) /\
  thrown (Adapter.find Sample.up "other" "users" JUndefined w) /\
  thrown (Adapter.update Sample.up "other" "users" JUndefined a_document w) /\
  thrown (Adapter.destroy Sample.up "other" "users" JUndefined w).
Proof.
  intros w.
  apply (unregistered_connection_throws Sample.up w "other" "users" a_document JUndefined
           a_document a_document []).
  vm_compute. reflexivity.
Defined.

(** On an entry whose connection was never opened (a registration that
    failed or threw), the verbs that read the connection throw a [TypeError]
    before anything is asked of the store. *)
Theorem unopened_connection_throws (E : Env) (w : world)
    (connectionName collectionName : string) (connectionObject : ConnectionEntry)
    (data options values : jsval) :
  connections w !! connectionName = Some connectionObject ->
  connection connectionObject = None ->
  let thrown (r : res cb_args * world) := is_TypeError r.1 = true /\ r.2 = w in
  thrown (Adapter.describe E connectionName collectionName w) /\
  thrown (Adapter.define E connectionName collectionName data w) /\
  thrown (Adapter.drop E connectionName collectionName data w) /\
  thrown (Adapter.create E connectionName collectionName data w) /\
  thrown (Adapter.update E connectionName collectionName options values w) /\
  thrown (Adapter.destroy E connectionName collectionName options w).
Proof.
  intros Hconn Hnone thrown. subst thrown. cbv beta.
  unfold Adapter.describe, Adapter.define, Adapter.drop, Adapter.create,
    Adapter.update, Adapter.destroy,
    Adapter.lookup_connectionObject, Adapter.live_connection.
  run. rewrite Hconn, Hnone.
  destruct (js_lookup (collections connectionObject) collectionName);
    repeat split; reflexivity.
Qed.

Lemma unopened_connection_throws_witness :
  let w := (Adapter.registerConnection Sample.down {[ "identity" := JStr "db" ]} ∅
              Sample.empty_world).2 in
  let thrown (r : res cb_args * world) := is_TypeError r.1 = true /\ r.2 = w in
  thrown (Adapter.describe Sample.up "db" "users" w) /\
  thrown (Adapter.define Sample.up "db" "users" a_document w) /\
  thrown (Adapter.drop Sample.up "db" "users" a_document w) /\
  thrown (Adapter.create Sample.up "db" "users" a_document w) /\
  thrown (Adapter.update Sample.up "db" "users" JUndefined a_document w) /\
  thrown (Adapter.destroy Sample.up "db" "users" JUndefined w).
Proof.
  intros w.
  apply (unopened_connection_throws Sample.up w "db" "users"
           (pending_entry {[ "identity" := JStr "db" ]}) a_document JUndefined a_document).
  - vm_compute. reflexivity.
  - reflexivity.
Defined.

(** ** Guarded verbs on a read-only connection *)

(** On a live connection whose configuration has [readOnly] set, [define],
    [drop], [create], [update] and [destroy] call back without error and
    without result, and ask nothing of the store; the collection need not
    even be registered. *)
Theorem read_only_verbs_are_noops (E : Env) (w : world) (connectionName collectionName : string)
    (connectionObject : ConnectionEntry) (c : Connection) (data options values : jsval) :
  connections w !! connectionName = Some connectionObject ->
  connection connectionObject = Some c ->
  truthy (get (config c) "readOnly") = true ->
  Adapter.define E connectionName collectionName data w = (Ret (Cb None JUndefined), w) /\
  Adapter.drop E connectionName collectionName data w = (Ret (Cb None JUndefined), w) /\
  Adapter.create E connectionName collectionName data w = (Ret (Cb None JUndefined), w) /\
  Adapter.update E connectionName collectionName options values w
    = (Ret (Cb None JUndefined), w) /\
  Adapter.destroy E connectionName collectionName options w = (Ret (Cb None JUndefined), w).
Proof.
  intros Hconn Hlive Hro.
  repeat split;
    eauto using define_read_only, drop_read_only, create_read_only, update_read_only,
      destroy_read_only.
Qed.

Lemma read_only_verbs_are_noops_witness :
  let w := Sample.one_connection small_read_only_config in
  Adapter.define Sample.up "db" "ghosts" a_document w = (Ret (Cb None JUndefined), w) /\
  Adapter.drop Sample.up "db" "ghosts" a_document w = (Ret (Cb None JUndefined), w) /\
  Adapter.create Sample.up "db" "ghosts" a_document w = (Ret (Cb None JUndefined), w) /\
  Adapter.update Sample.up "db" "ghosts" JUndefined a_document w
    = (Ret (Cb None JUndefined), w) /\
  Adapter.destroy Sample.up "db" "ghosts" JUndefined w = (Ret (Cb None JUndefined), w).
Proof.
  intros w.
  apply (read_only_verbs_are_noops Sample.up w "db" "ghosts"
           {| entry_config := small_read_only_config;
              collections := {[ "users" := Collection_new Sample.users_def
                                             (Sample.live small_read_only_config) ]};
              connection := Some (Sample.live small_read_only_config) |}
           (Sample.live small_read_only_config) a_document JUndefined a_document).
  - vm_compute. reflexivity.
  - reflexivity.
  - vm_compute. reflexivity.
Defined.

(** ** Writing verbs on a writable connection *)

Lemma async_each_issue {A} (mk : A -> call) (reply : A -> list call -> option error)
    (items : list A) (w0 : world) :
  exists err,
    async_each items (fun item => issue (mk item) (reply item)) w0
    = (Ret err, {| connections := connections w0; log := log w0 ++ List.map mk items |}).
Proof.
  revert w0. induction items as [|item items IH]; intros w0; cbn [async_each List.map].
  - exists None. destruct w0. unfold mret, M_ret. cbn. now rewrite app_nil_r.
  - unfold mbind, M_bind. cbv beta. unfold issue at 1.
    destruct (IH {| connections := connections w0; log := log w0 ++ [mk item] |})
      as [err' ->].
    cbn. eexists. rewrite <- app_assoc. reflexivity.
Qed.

(** [destroy] finds before it deletes: when the find fails nothing is
    deleted and the find's error is called back; otherwise the delete is
    issued with the same criteria, and the callback receives the records of
    the find step, or the delete's error. *)
Theorem destroy_find_then_delete (E : Env) (w : world) (connectionName collectionName : string)
    (connectionObject : ConnectionEntry) (c : Connection) (collection : Collection)
    (options : jsval) :
  connections w !! connectionName = Some connectionObject ->
  collections connectionObject !! collectionName = Some collection ->
  connection connectionObject = Some c ->
  truthy (get (config c) "readOnly") = false ->
  let criteria := Adapter.or_empty options in
  let found := find_reply E (log w) collection criteria in
  match found.1 with
  | Some err =>
      Adapter.destroy E connectionName collectionName options w
        = (Ret (Cb (Some err) JUndefined), after w [Collection_find collection criteria])
  | None =>
      Adapter.destroy E connectionName collectionName options w
        = (Ret (match destroy_reply E (log w ++ [Collection_find collection criteria])
                        collection criteria with
                | Some err => Cb (Some err) JUndefined
                | None => Cb None found.2
                end),
           after w [Collection_find collection criteria;
                    Collection_destroy collection criteria])
  end.
Proof.
  intros Hconn Hcoll Hlive Hwritable criteria found.
  unfold Adapter.destroy, Adapter.lookup_connectionObject, Adapter.live_connection,
    Adapter.the_collection, after.
  run. rewrite Hconn, Hlive, Hwritable, Hcoll. fold criteria. fold found.
  destruct found as [[err|] results]; cbn; [reflexivity|].
  destruct (destroy_reply E _ collection criteria); rewrite <- app_assoc; reflexivity.
Qed.

Lemma destroy_find_then_delete_witness :
  let w := Sample.one_connection small_config in
  let collection := Collection_new Sample.users_def (Sample.live small_config) in
  let criteria := Adapter.or_empty JUndefined in
  let found := find_reply Sample.up (log w) collection criteria in
  match found.1 with
  | Some err =>
      Adapter.destroy Sample.up "db" "users" JUndefined w
        = (Ret (Cb (Some err) JUndefined), after w [Collection_find collection criteria])
  | None =>
      Adapter.destroy Sample.up "db" "users" JUndefined w
        = (Ret (match destroy_reply Sample.up (log w ++ [Collection_find collection criteria])
                        collection criteria with
                | Some err => Cb (Some err) JUndefined
                | None => Cb None found.2
                end),
           after w [Collection_find collection criteria;
                    Collection_destroy collection criteria])
  end.
Proof.
  intros w collection.
  apply (destroy_find_then_delete Sample.up w "db" "users"
           {| entry_config := small_config;
              collections := {[ "users" := collection ]};
              connection := Some (Sample.live small_config) |}
           (Sample.live small_config) collection JUndefined).
  - vm_compute. reflexivity.
  - reflexivity.
  - reflexivity.
  - vm_compute. reflexivity.
Defined.

(** [create] inserts the document and calls back with the first element of
    the store's results ([undefined] when the store answers an empty array);
    a store error is called back through [clarifyError]. *)
Theorem create_first_result (E : Env) (w : world) (connectionName collectionName : string)
    (connectionObject : ConnectionEntry) (c : Connection) (collection : Collection)
    (data : jsval) :
  connections w !! connectionName = Some connectionObject ->
  collections connectionObject !! collectionName = Some collection ->
  connection connectionObject = Some c ->
  truthy (get (config c) "readOnly") = false ->
  let reply := insert_reply E (log w) collection data in
  (forall err, reply.1 = Some err ->
     Adapter.create E connectionName collectionName data w
       = (Ret (Cb (Some (clarifyError E err)) JUndefined),
          after w [Collection_insert collection data])) /\
  (forall results, reply = (None, JArr results) ->
     Adapter.create E connectionName collectionName data w
       = (Ret (Cb None (nth 0 results JUndefined)),
          after w [Collection_insert collection data])).
Proof.
  intros Hconn Hcoll Hlive Hwritable reply.
  unfold Adapter.create, Adapter.lookup_connectionObject, Adapter.live_connection,
    Adapter.the_collection, after.
  run. rewrite Hconn, Hlive, Hwritable, Hcoll. fold reply.
  split.
  - intros err Herr. destruct reply as [e results]. cbn in Herr. subst e. reflexivity.
  - intros results ->. reflexivity.
Qed.

Lemma create_first_result_witness :
  let w := Sample.one_connection small_config in
  let collection := Collection_new Sample.users_def (Sample.live small_config) in
  let reply := insert_reply Sample.up (log w) collection a_document in
  (forall err, reply.1 = Some err ->
     Adapter.create Sample.up "db" "users" a_document w
       = (Ret (Cb (Some (clarifyError Sample.up err)) JUndefined),
          after w [Collection_insert collection a_document])) /\
  (forall results, reply = (None, JArr results) ->
     Adapter.create Sample.up "db" "users" a_document w
       = (Ret (Cb None (nth 0 results JUndefined)),
          after w [Collection_insert collection a_document])).
Proof.
  intros w collection.
  apply (create_first_result Sample.up w "db" "users"
           {| entry_config := small_config;
              collections := {[ "users" := collection ]};
              connection := Some (Sample.live small_config) |}
           (Sample.live small_config) collection a_document).
  - vm_compute. reflexivity.
  - reflexivity.
  - reflexivity.
  - vm_compute. reflexivity.
Defined.

Example create_returns_the_document :
  (Adapter.create Sample.up "db" "users" a_document
     (Sample.one_connection small_config)).1 = Ret (Cb None a_document).
Proof. vm_compute. reflexivity. Qed.

(** [createEach], whatever the [readOnly] flag: an empty batch is answered
    with an empty array before the registry is consulted; a non-empty batch
    is handed whole to the collection's insert, whose results are called
    back as they are and whose error goes through [clarifyError]. *)
Theorem createEach_batch (E : Env) (w : world) (connectionName collectionName : string)
    (connectionObject : ConnectionEntry) (collection : Collection) (batch : list jsval) :
  connections w !! connectionName = Some connectionObject ->
  collections connectionObject !! collectionName = Some collection ->
  let reply := insert_reply E (log w) collection (JArr batch) in
  Adapter.createEach E connectionName collectionName (JArr batch) w
  = match batch with
    | [] => (Ret (Cb None (JArr [])), w)
    | _ :: _ =>
        (Ret (match reply.1 with
              | Some err => Cb (Some (clarifyError E err)) JUndefined
              | None => Cb None reply.2
              end),
         after w [Collection_insert collection (JArr batch)])
    end.
Proof.
  intros Hconn Hcoll reply.
  unfold Adapter.createEach, Adapter.lookup_connectionObject, Adapter.the_collection, after.
  run. destruct batch as [|d ds]; [reflexivity|].
  simpl. rewrite Hconn. simpl. rewrite Hcoll. simpl. fold reply.
  destruct reply as [[err|] results]; reflexivity.
Qed.

Lemma createEach_batch_witness :
  let w := Sample.one_connection small_config in
  let collection := Collection_new Sample.users_def (Sample.live small_config) in
  let reply := insert_reply Sample.up (log w) collection (JArr [a_document]) in
  Adapter.createEach Sample.up "db" "users" (JArr [a_document]) w
  = match [a_document] with
    | [] => (Ret (Cb None (JArr [])), w)
    | _ :: _ =>
        (Ret (match reply.1 with
              | Some err => Cb (Some (clarifyError Sample.up err)) JUndefined
              | None => Cb None reply.2
              end),
         after w [Collection_insert collection (JArr [a_document])])
    end.
Proof.
  intros w collection.
  apply (createEach_batch Sample.up w "db" "users"
           {| entry_config := small_config;
              collections := {[ "users" := collection ]};
              connection := Some (Sample.live small_config) |}
           collection [a_document]).
  - vm_compute. reflexivity.
  - reflexivity.
Defined.

(** [define] on a writable connection creates the collection and then asks
    for every declared index, in the order of the declaration and also after
    an index has failed; a failure to create the collection is called back
    before any index is asked for. *)
Theorem define_collection_then_indexes (E : Env) (w : world)
    (connectionName collectionName : string) (connectionObject : ConnectionEntry)
    (c : Connection) (collection : Collection) (definition : jsval) :
  connections w !! connectionName = Some connectionObject ->
  collections connectionObject !! collectionName = Some collection ->
  connection connectionObject = Some c ->
  truthy (get (config c) "readOnly") = false ->
  match createCollection_reply E (log w) (client_of c) collectionName with
  | Some err =>
      Adapter.define E connectionName collectionName definition w
        = (Ret (Cb (Some err) JUndefined),
           after w [Db_createCollection (client_of c) collectionName])
  | None =>
      exists err,
        Adapter.define E connectionName collectionName definition w
          = (Ret (Cb err JUndefined),
             after w (Db_createCollection (client_of c) collectionName
                      :: List.map (fun item => Db_createIndex (client_of c) collectionName
                                                 item.1 item.2)
                                  (indexes collection)))
  end.
Proof.
  intros Hconn Hcoll Hlive Hwritable.
  unfold Adapter.define, Adapter.lookup_connectionObject, Adapter.live_connection,
    ConnectionJs.createCollection, ConnectionJs._ensureIndexes, after.
  run. rewrite Hconn, Hlive, Hwritable, (js_lookup_own _ _ _ Hcoll).
  destruct (createCollection_reply E (log w) (client_of c) collectionName); [reflexivity|].
  cbn.
  set (w1 := {| connections := connections w; log := log w ++ [_] |}).
  destruct (async_each_issue
              (fun item : jsval * jsval =>
                 Db_createIndex (client_of c) collectionName item.1 item.2)
              (fun item l => createIndex_reply E l (client_of c) collectionName item.1 item.2)
              (indexes collection) w1) as [err Herr].
  unfold issue in Herr. rewrite Herr. subst w1. cbn.
  exists err. now rewrite <- app_assoc.
Qed.

Lemma define_collection_then_indexes_witness :
  let w := indexed_world in
  let c := Sample.live small_config in
  match createCollection_reply Sample.up (log w) (client_of c) "users" with
  | Some err =>
      Adapter.define Sample.up "db" "users" JUndefined w
        = (Ret (Cb (Some err) JUndefined),
           after w [Db_createCollection (client_of c) "users"])
  | None =>
      exists err,
        Adapter.define Sample.up "db" "users" JUndefined w
          = (Ret (Cb err JUndefined),
             after w (Db_createCollection (client_of c) "users"
                      :: List.map (fun item => Db_createIndex (client_of c) "users"
                                                 item.1 item.2)
                                  (indexes indexed_users)))
  end.
Proof.
  intros w c.
  apply (define_collection_then_indexes Sample.up w "db" "users"
           {| entry_config := small_config;
              collections := {[ "users" := indexed_users ]};
              connection := Some c |}
           c indexed_users JUndefined).
  - vm_compute. reflexivity.
  - reflexivity.
  - reflexivity.
  - vm_compute. reflexivity.
Defined.

(** [define] on a writable connection for a collection name that was not
    registered still creates the collection at the store; reading the missing
    entry's indexes then throws a [TypeError], unless the name is one every
    object inherits: what is found under it has no indexes, none is asked
    for and the callback receives no error. *)
Theorem define_unregistered_collection (E : Env) (w : world)
    (connectionName collectionName : string) (connectionObject : ConnectionEntry)
    (c : Connection) (definition : jsval) :
  connections w !! connectionName = Some connectionObject ->
  collections connectionObject !! collectionName = None ->
  connection connectionObject = Some c ->
  truthy (get (config c) "readOnly") = false ->
  createCollection_reply E (log w) (client_of c) collectionName = None ->
  let r := Adapter.define E connectionName collectionName definition w in
  r.2 = after w [Db_createCollection (client_of c) collectionName] /\
  if inherited collectionName
  then r.1 = Ret (Cb None JUndefined)
  else is_TypeError r.1 = true.
Proof.
  intros Hconn Hcoll Hlive Hwritable Hcreated r. subst r.
  unfold Adapter.define, Adapter.lookup_connectionObject, Adapter.live_connection,
    ConnectionJs.createCollection, ConnectionJs._ensureIndexes, after, js_lookup.
  run. rewrite Hconn, Hlive, Hwritable, Hcoll, Hcreated.
  destruct (inherited collectionName); split; reflexivity.
Qed.

Lemma define_unregistered_collection_witness :
  let w := Sample.one_connection small_config in
  let r := Adapter.define Sample.up "db" "ghosts" JUndefined w in
  r.2 = after w [Db_createCollection (client_of (Sample.live small_config)) "ghosts"] /\
  if inherited "ghosts"
  then r.1 = Ret (Cb None JUndefined)
  else is_TypeError r.1 = true.
Proof.
  intros w.
  apply (define_unregistered_collection Sample.up w "db" "ghosts"
           {| entry_config := small_config;
              collections := {[ "users" := Collection_new Sample.users_def
                                             (Sample.live small_config) ]};
              connection := Some (Sample.live small_config) |}
           (Sample.live small_config) JUndefined).
  - vm_compute. reflexivity.
  - reflexivity.
  - reflexivity.
  - vm_compute. reflexivity.
  - reflexivity.
Defined.

Example define_inherited_name :
  Adapter.define Sample.up "db" "constructor" JUndefined (Sample.one_connection small_config)
  = (Ret (Cb None JUndefined),
     after (Sample.one_connection small_config) [Db_createCollection 7%nat "constructor"]).
Proof. vm_compute. reflexivity. Qed.
(** * Further properties of lib/connection.js *)

(** ** The [Connection] constructor *)

(** [new Connection(config, cb)] either throws before any call, or issues
    exactly one connect call.  A connection object reaches the callback only
    when the driver answered with a client and no error; it then holds the
    configuration it was given and the driver's client.  An answer with
    neither error nor client becomes the error [no db object]. *)
Theorem Connection_new_outcome (E : Env) (config : jsobj) (w : world) :
  match ConnectionJs.Connection_new E config w with
  | (Throw _, w') => w' = w
  | (Ret (inr self), w') =>
      Mongo.config self = config /\
      exists s o,
        w' = after w [MongoClient_connect s o] /\
        connect_reply E (log w) s o = (None, Some (client_of self))
  | (Ret (inl err), w') =>
      exists s o,
        w' = after w [MongoClient_connect s o] /\
        ((connect_reply E (log w) s o).1 = Some err \/
         (connect_reply E (log w) s o = (None, None) /\ err = NoDbObject))
  end.
Proof.
  unfold ConnectionJs.Connection_new, ConnectionJs._buildConnection, after. run.
  destruct (ConnectionJs.availableConfiguration E config) as [a|e]; [|reflexivity].
  destruct (ConnectionJs.connectionString a) as [[s a']|e]; [|reflexivity].
  destruct (connect_reply E (log w) s _) as [[err|] [client|]] eqn:Hreply; cbn.
  - eexists _, _. split; [reflexivity|]. rewrite Hreply. now left.
  - eexists _, _. split; [reflexivity|]. rewrite Hreply. now left.
  - split; [reflexivity|]. eexists _, _. split; [reflexivity|]. exact Hreply.
  - eexists _, _. split; [reflexivity|]. rewrite Hreply. now right.
Qed.

(** ** The connect options *)

Lemma dom_connectionOptions0 (a : jsobj) :
  dom (ConnectionJs.connectionOptions0 a)
  = if truthy (get a "useUnifiedTopology") then unified_options else legacy_options.
Proof.
  unfold ConnectionJs.connectionOptions0, falsy, unified_options, legacy_options.
  destruct (truthy (get a "useUnifiedTopology")); cbn [negb].
  - apply dom_singleton_L.
  - rewrite !dom_insert_L, dom_empty_L. set_solver.
Qed.

(** The options handed to [MongoClient.connect] are one of two families,
    never a mix: with [useUnifiedTopology] set in the merged configuration
    only that flag, otherwise exactly [readPreference], [autoReconnect],
    [reconnectInterval] and [reconnectTries]; [authSource] is added exactly
    when the merged configuration has it.  Nothing else is passed: neither
    credentials, host or database, nor [useNewUrlParser]. *)
Theorem connect_options_families (E : Env) (config : jsobj) (w : world) :
  match ConnectionJs._buildConnection E config w with
  | (Throw _, w') => w' = w
  | (Ret reply, w') =>
      exists available s o,
        ConnectionJs.availableConfiguration E config = Ret available /\
        w' = after w [MongoClient_connect s o] /\
        reply = connect_reply E (log w) s o /\
        dom o = (if truthy (get available "useUnifiedTopology")
                 then unified_options else legacy_options)
                ∪ (if hasOwnProperty available "authSource" then {[ "authSource" ]} else ∅)
  end.
Proof.
  unfold ConnectionJs._buildConnection, after. run.
  destruct (ConnectionJs.availableConfiguration E config) as [a|e]; [|reflexivity].
  destruct (ConnectionJs.connectionString a) as [[s a']|e] eqn:Hs; [|reflexivity].
  exists a, s, (ConnectionJs.connectionOptions a a').
  repeat split.
  unfold ConnectionJs.connectionOptions, hasOwnProperty.
  rewrite (connectionString_keeps_authSource a a' s Hs).
  case_bool_decide.
  - rewrite dom_insert_L, dom_connectionOptions0. apply (comm_L (∪)).
  - rewrite dom_connectionOptions0. now rewrite (right_id_L ∅ (∪)).
Qed.

(** ** A configured URL *)

Lemma get_defaults_skipped (c d : jsobj) (k : string) :
  get (defaults ∅ [None; Some c; Some d]) k = first_defined [get c k; get d k].
Proof.
  unfold defaults; cbn [fold_left].
  rewrite !get_defaults1, get_empty, first_defined_undefined.
  destruct (get c k), (get d k); reflexivity.
Qed.

Lemma buildConnection_with_url (E : Env) (config : jsobj) (w : world) :
  truthy (get config "url") = true ->
  truthy (get config "uri") = false ->
  exists o,
    ConnectionJs._buildConnection E config w
      = (Ret (connect_reply E (log w) (get config "url") o),
         after w [MongoClient_connect (get config "url") o]).
Proof.
  intros Hurl Huri.
  unfold ConnectionJs._buildConnection, ConnectionJs.availableConfiguration,
    ConnectionJs.queryParams, ConnectionJs.extractQueryFromUri, after, falsy.
  rewrite Hurl, Huri. cbn [negb]. run.
  unfold ConnectionJs.connectionString.
  rewrite get_defaults_skipped, first_defined_truthy by assumption.
  rewrite Hurl. cbn. eexists. reflexivity.
Qed.

(** With a [url] in the configuration and no [uri], the connection string
    handed to the driver is that URL as it is, and nothing is checked: no
    configuration error is thrown, whatever the user, password and database
    fields hold. *)
Theorem url_used_verbatim (E : Env) (config : jsobj) (w : world) :
  truthy (get config "url") = true ->
  truthy (get config "uri") = false ->
  exists o,
    ConnectionJs._buildConnection E config w
      = (Ret (connect_reply E (log w) (get config "url") o),
         after w [MongoClient_connect (get config "url") o]).
Proof. apply buildConnection_with_url. Qed.

Lemma url_used_verbatim_witness :
  exists o,
    ConnectionJs._buildConnection Sample.up url_and_lone_user Sample.empty_world
      = (Ret (connect_reply Sample.up (log Sample.empty_world) (get url_and_lone_user "url") o),
         after Sample.empty_world [MongoClient_connect (get url_and_lone_user "url") o]).
Proof.
  apply (url_used_verbatim Sample.up url_and_lone_user Sample.empty_world).
  - vm_compute. reflexivity.
  - vm_compute. reflexivity.
Defined.

(** ** Question marks in the URI *)

Lemma split_absent (c : ascii) (s : string) : occurs c s = false -> split c s = [s].
Proof.
  induction s as [|c' s IH]; [reflexivity|]. cbn [occurs split].
  intros [Hc Hs]%orb_false_iff. rewrite Hc, (IH Hs). reflexivity.
Qed.

Lemma split_at_first (c : ascii) (a b : string) :
  occurs c a = false -> split c (a ++ String c b) = a :: split c b.
Proof.
  induction a as [|c' a IH]; simpl.
  - intros _. now rewrite Ascii.eqb_refl.
  - intros [Hc Ha]%orb_false_iff. rewrite Hc, (IH Ha). reflexivity.
Qed.

Lemma append_not_empty (a b : string) : a <> "" -> a ++ b <> "".
Proof. destruct a; [congruence | discriminate]. Qed.

(** [extractQueryFromUri] hands to [querystring.parse] what lies between the
    first and the second question mark: a URI without a question mark has no
    parameters, and what follows a second question mark is dropped. *)
Theorem extractQueryFromUri_question_marks (E : Env) (base q rest : string) :
  base <> "" ->
  occurs "?" base = false ->
  occurs "?" q = false ->
  ConnectionJs.extractQueryFromUri E (JStr base) = Ret (Some ∅) /\
  ConnectionJs.extractQueryFromUri E (JStr (base ++ String "?" q))
    = Ret (Some (querystring_parse E q)) /\
  ConnectionJs.extractQueryFromUri E (JStr (base ++ String "?" (q ++ String "?" rest)))
    = Ret (Some (querystring_parse E q)).
Proof.
  intros Hne Hbase Hq.
  rewrite !extractQueryFromUri_string by (assumption || now apply append_not_empty).
  unfold query_of.
  rewrite (split_absent _ _ Hbase), !(split_at_first _ _ _ Hbase),
    (split_absent _ _ Hq), (split_at_first _ _ _ Hq).
  repeat split.
Qed.

Lemma extractQueryFromUri_question_marks_witness :
  ConnectionJs.extractQueryFromUri Sample.up (JStr "mongodb://h/db") = Ret (Some ∅) /\
  ConnectionJs.extractQueryFromUri Sample.up (JStr ("mongodb://h/db" ++ String "?" "w=1"))
    = Ret (Some (querystring_parse Sample.up "w=1")) /\
  ConnectionJs.extractQueryFromUri Sample.up
    (JStr ("mongodb://h/db" ++ String "?" ("w=1" ++ String "?" "ssl=true")))
    = Ret (Some (querystring_parse Sample.up "w=1")).
Proof.
  apply (extractQueryFromUri_question_marks Sample.up "mongodb://h/db" "w=1" "ssl=true").
  - discriminate.
  - reflexivity.
  - reflexivity.
Defined.

(** ** The two versions of [_buildConnection] *)

Lemma buildConnectionString_ext (p p' : jsobj) :
  (forall k, k ∈ ["user"; "password"; "database"; "host"; "port"] -> get p k = get p' k) ->
  ConnectionJs.buildConnectionString p = ConnectionJs.buildConnectionString p'.
Proof.
  intros H. unfold ConnectionJs.buildConnectionString.
  rewrite (H "user"), (H "password"), (H "database"), (H "host"), (H "port")
    by (rewrite !elem_of_cons; tauto).
  reflexivity.
Qed.

Lemma get_without_query (config : jsobj) (k : string) :
  k <> "useNewUrlParser" ->
  get (defaults ∅ [Some ∅; Some config; Some {[ "useNewUrlParser" := JBool true ]}]) k
  = get config k.
Proof.
  intros Hk. rewrite get_defaults_three, get_empty, first_defined_undefined.
  unfold get at 2. rewrite lookup_singleton_ne by congruence. cbn [default].
  destruct (get config k); reflexivity.
Qed.

(** Without a URL the two versions of [_buildConnection] agree on what is
    connected to: both throw the same configuration error before any call,
    or both issue one connect call with the connection string that
    [buildConnectionString] builds from the configuration (the options
    differ). *)
Theorem versions_agree_without_url (E : Env) (config : jsobj) (w : world) :
  truthy (get config "url") = false ->
  match ConnectionJs.buildConnectionString config with
  | Throw e =>
      ConnectionJs0._buildConnection E config w = (Throw e, w) /\
      ConnectionJs._buildConnection E config w = (Throw e, w)
  | Ret s =>
      exists o0 o,
        ConnectionJs0._buildConnection E config w
          = (Ret (connect_reply E (log w) (JStr s) o0),
             after w [MongoClient_connect (JStr s) o0]) /\
        ConnectionJs._buildConnection E config w
          = (Ret (connect_reply E (log w) (JStr s) o),
             after w [MongoClient_connect (JStr s) o])
  end.
Proof.
  intros Hurl.
  assert (H2 : forall r, ConnectionJs.buildConnectionString config = r ->
             ConnectionJs._buildConnection E config w
             = match r with
               | Throw e => (Throw e, w)
               | Ret s =>
                   let a := defaults ∅ [Some ∅; Some config;
                                        Some {[ "useNewUrlParser" := JBool true ]}] in
                   let a' := fold_left
                               (fun acc prop => if hasOwnProperty acc prop
                                                then delete prop acc else acc)
                               ["user"; "password"; "database"; "host"; "port"] a in
                   (Ret (connect_reply E (log w) (JStr s) (ConnectionJs.connectionOptions a a')),
                    after w [MongoClient_connect (JStr s) (ConnectionJs.connectionOptions a a')])
               end).
  { intros r Hr.
    unfold ConnectionJs._buildConnection, ConnectionJs.availableConfiguration,
      ConnectionJs.queryParams, ConnectionJs.connectionString, after.
    rewrite Hurl. run.
    rewrite get_without_query by discriminate. rewrite Hurl.
    rewrite (buildConnectionString_ext _ config)
      by (intros k Hk; apply get_without_query;
          rewrite !elem_of_cons, elem_of_nil in Hk;
          destruct Hk as [->|[->|[->|[->|[->|[]]]]]]; discriminate).
    rewrite Hr. destruct r; reflexivity. }
  rewrite (H2 _ eq_refl).
  unfold ConnectionJs0._buildConnection, ConnectionJs.buildConnectionString, after, falsy.
  run. rewrite Hurl.
  destruct (truthy (get config "user") && truthy (get config "password"));
    destruct (truthy (get config "database")); cbn;
    first [ split; reflexivity | eexists _, _; split; reflexivity ].
Qed.

Lemma versions_agree_without_url_witness :
  match ConnectionJs.buildConnectionString host_and_port with
  | Throw e =>
      ConnectionJs0._buildConnection Sample.up host_and_port Sample.empty_world
        = (Throw e, Sample.empty_world) /\
      ConnectionJs._buildConnection Sample.up host_and_port Sample.empty_world
        = (Throw e, Sample.empty_world)
  | Ret s =>
      exists o0 o,
        ConnectionJs0._buildConnection Sample.up host_and_port Sample.empty_world
          = (Ret (connect_reply Sample.up (log Sample.empty_world) (JStr s) o0),
             after Sample.empty_world [MongoClient_connect (JStr s) o0]) /\
        ConnectionJs._buildConnection Sample.up host_and_port Sample.empty_world
          = (Ret (connect_reply Sample.up (log Sample.empty_world) (JStr s) o),
             after Sample.empty_world [MongoClient_connect (JStr s) o])
  end.
Proof.
  apply (versions_agree_without_url Sample.up host_and_port Sample.empty_world).
  vm_compute. reflexivity.
Defined.

(** With a URL the two versions differ on credentials without a database:
    the earlier version checks them before it looks at the URL and throws
    the configuration error; the later one (given no [uri]) connects to the
    URL without any check. *)
Theorem versions_differ_with_url (E : Env) (config : jsobj) (w : world) :
  truthy (get config "url") = true ->
  truthy (get config "uri") = false ->
  truthy (get config "user") = true ->
  truthy (get config "password") = true ->
  truthy (get config "database") = false ->
  ConnectionJs0._buildConnection E config w = (Throw database_required, w) /\
  exists o,
    ConnectionJs._buildConnection E config w
      = (Ret (connect_reply E (log w) (get config "url") o),
         after w [MongoClient_connect (get config "url") o]).
Proof.
  intros Hurl Huri Huser Hpw Hdb. split.
  - unfold ConnectionJs0._buildConnection, falsy. run. now rewrite Huser, Hpw, Hdb.
  - now apply buildConnection_with_url.
Qed.

Lemma versions_differ_with_url_witness :
  ConnectionJs0._buildConnection Sample.up url_and_credentials Sample.empty_world
    = (Throw database_required, Sample.empty_world) /\
  exists o,
    ConnectionJs._buildConnection Sample.up url_and_credentials Sample.empty_world
      = (Ret (connect_reply Sample.up (log Sample.empty_world)
                (get url_and_credentials "url") o),
         after Sample.empty_world [MongoClient_connect (get url_and_credentials "url") o]).
Proof.
  apply (versions_differ_with_url Sample.up url_and_credentials Sample.empty_world);
    vm_compute; reflexivity.
Defined.

(** The earlier version always passes the same eleven option names,
    [useNewUrlParser] among them, and uses a configured URL as the
    connection string. *)
Theorem earlier_version_options (E : Env) (config : jsobj) (w : world) :
  match ConnectionJs0._buildConnection E config w with
  | (Throw e, w') => e = database_required /\ w' = w
  | (Ret reply, w') =>
      exists s o,
        w' = after w [MongoClient_connect s o] /\
        reply = connect_reply E (log w) s o /\
        (truthy (get config "url") = true -> s = get config "url") /\
        o !! "useNewUrlParser" = Some (JBool true) /\
        dom o = {[ "readPreference"; "ssl"; "sslValidate"; "sslCA"; "sslCert"; "sslKey";
                   "poolSize"; "autoReconnect"; "reconnectInterval"; "reconnectTries";
                   "useNewUrlParser" ]}
  end.
Proof.
  unfold ConnectionJs0._buildConnection, after, falsy. run.
  destruct (truthy (get config "user") && truthy (get config "password"));
    destruct (truthy (get config "database")); cbn; try (split; reflexivity).
  all: eexists _, _; split; [reflexivity|]; split; [reflexivity|]; split;
    [ intros ->; reflexivity | split; [apply lookup_insert_eq|] ].
  all: rewrite !dom_insert_L, dom_empty_L; set_solver.
Qed.

(** ** Reading verbs *)

Lemma only_reads_pure {A} (m : M A) : (forall w, (m w).2 = w) -> only_reads m.
Proof.
  intros H w. exists []. rewrite H. split; [now rewrite app_nil_r | reflexivity].
Qed.

Lemma only_reads_issue {A} (c : call) (reply : list call -> A) :
  is_mutation c = false -> only_reads (issue c reply).
Proof. intros Hc w. exists [c]. cbn. now rewrite Hc. Qed.

Lemma only_reads_bind {A B} (m : M A) (k : A -> M B) :
  only_reads m -> (forall a, only_reads (k a)) -> only_reads (m ≫= k).
Proof.
  intros Hm Hk w. unfold mbind, M_bind. destruct (Hm w) as (calls & Hlog & Hread).
  destruct (m w) as [[a|e] w']; cbn in *; [|eauto].
  destruct (Hk a w') as (calls' & Hlog' & Hread').
  exists (calls ++ calls')%list. rewrite Hlog', Hlog, app_assoc. split; [reflexivity|].
  rewrite forallb_app, Hread, Hread'. reflexivity.
Qed.

Ltac only_reads :=
  repeat first
    [ apply only_reads_issue; reflexivity
    | apply only_reads_pure; intros ?; reflexivity
    | apply only_reads_bind; [|intros ?]
    | match goal with
      | |- only_reads (match ?x with _ => _ end) => destruct x
      | |- only_reads (if ?b then _ else _) => destruct b
      end ].


(** [find] on a registered collection asks the store once, with an empty
    criteria object in place of a missing one, and calls back with the
    store's records or with its error unchanged; it does not look at the
    connection, so it does not depend on the [readOnly] flag. *)
Theorem find_passes_through (E : Env) (w : world) (connectionName collectionName : string)
    (connectionObject : ConnectionEntry) (collection : Collection) (options : jsval) :
  connections w !! connectionName = Some connectionObject ->
  collections connectionObject !! collectionName = Some collection ->
  let criteria := if truthy options then options else JObj [] in
  let reply := find_reply E (log w) collection criteria in
  Adapter.find E connectionName collectionName options w
  = (Ret (match reply.1 with
          | Some err => Cb (Some err) JUndefined
          | None => Cb None reply.2
          end),
     after w [Collection_find collection criteria]).
Proof.
  intros Hconn Hcoll criteria reply.
  unfold Adapter.find, Adapter.lookup_connectionObject, Adapter.the_collection,
    Adapter.or_empty, after.
  run. rewrite Hconn. cbn. rewrite Hcoll. cbn. fold criteria. fold reply.
  destruct reply as [[err|] results]; reflexivity.
Qed.

Lemma find_passes_through_witness :
  let w := Sample.one_connection small_read_only_config in
  let collection := Collection_new Sample.users_def (Sample.live small_read_only_config) in
  let criteria := if truthy JNull then JNull else JObj [] in
  let reply := find_reply Sample.up (log w) collection criteria in
  Adapter.find Sample.up "db" "users" JNull w
  = (Ret (match reply.1 with
          | Some err => Cb (Some err) JUndefined
          | None => Cb None reply.2
          end),
     after w [Collection_find collection criteria]).
Proof.
  intros w collection.
  apply (find_passes_through Sample.up w "db" "users"
           {| entry_config := small_read_only_config;
              collections := {[ "users" := collection ]};
              connection := Some (Sample.live small_read_only_config) |}
           collection JNull).
  - vm_compute. reflexivity.
  - reflexivity.
Defined.

